(** * UnrealQtFramework: activation of the vendored Qt packages

    A shallow embedding of [framework.py].  The framework has one effectful
    entry point, [init_framework], which rewires the host Python process
    ([os.environ], [sys.path], [sys.prefix], [sys.real_prefix]) so that a
    vendored PySide distribution becomes importable, and the helpers
    [platform_name] and [bin_folder]; [destroy_framework] only logs.

    Conventions of the embedding:
    - a Python [str] is a [string]; a character stands for a code point
      below 256, the range on which the character classes used here
      ([\d], printability in [repr]) are written out;
    - the interpreter version components are naturals ([N]);
    - [os.environ] is a finite map from names to values;
    - everything the code reads from its host (the running platform, the
      interpreter version, the file system, the import system) is a field
      of a record [World];
    - the code runs in a state-and-exception monad over the mutable part of
      the process, so that the state at the point where an exception leaves
      [init_framework] is observable;
    - the string primitives ([str.split], [repr], [re.match]) follow
      Python 3;
    - of [site.addsitedir] the model keeps what it does to [sys.path] and
      the one exception it lets through; the code an [import] line of a
      [.pth] file runs is taken to act on [sys.path] alone;
    - calls to [self.logger.debug] are not modelled. *)

From Stdlib Require Import Ascii NArith.
From stdpp Require Import base option list strings pretty gmap.

(** ** Python string primitives *)

Definition ch_dquote : ascii := "034"%char.
Definition ch_squote : ascii := "039"%char.
Definition ch_backslash : ascii := "092"%char.
Definition ch_tab : ascii := "009"%char.
Definition ch_newline : ascii := "010"%char.
Definition ch_return : ascii := "013"%char.

Definition str1 (c : ascii) : string := String c EmptyString.

(** [sep.join(parts)] *)
Fixpoint str_join (sep : string) (parts : list string) : string :=
  match parts with
  | [] => ""
  | [s] => s
  | s :: rest => s +:+ sep +:+ str_join sep rest
  end.

(** [s.split(sep)] for a separator of one character: the pieces between the
    occurrences of [sep], empty pieces included; never the empty list. *)
Fixpoint str_split (sep : ascii) (s : string) : list string :=
  match s with
  | EmptyString => [""]
  | String c rest =>
      if bool_decide (c = sep) then "" :: str_split sep rest
      else match str_split sep rest with
           | piece :: pieces => String c piece :: pieces
           | [] => [str1 c]
           end
  end.

(** [s.startswith(prefix)], returning what follows the prefix. *)
Fixpoint strip_prefix (prefix s : string) : option string :=
  match prefix, s with
  | EmptyString, _ => Some s
  | String a prefix', String b s' =>
      if bool_decide (a = b) then strip_prefix prefix' s' else None
  | String _ _, EmptyString => None
  end.

Definition startswith (prefix s : string) : bool :=
  bool_decide (is_Some (strip_prefix prefix s)).

Fixpoint last_char (s : string) : option ascii :=
  match s with
  | EmptyString => None
  | String c EmptyString => Some c
  | String _ rest => last_char rest
  end.

Definition endswith_char (c : ascii) (s : string) : bool :=
  bool_decide (last_char s = Some c).

Fixpoint str_contains (c : ascii) (s : string) : bool :=
  match s with
  | EmptyString => false
  | String a rest => bool_decide (a = c) || str_contains c rest
  end.

(** ["%d" % n] and [str(n)] for a non-negative integer. *)
Definition str_of_int (n : N) : string := pretty n.

(** *** [repr] of a string and [str] of a list of strings

    [repr] quotes with ['] unless the string holds a ['] and no double
    quote; it escapes the backslash and the chosen quote, writes tab,
    newline and carriage return as [\t], [\n], [\r], and every other
    non-printable character as [\xhh]. *)

Definition hex_digit (n : N) : ascii :=
  match n with
  | 0 => "0" | 1 => "1" | 2 => "2" | 3 => "3" | 4 => "4" | 5 => "5"
  | 6 => "6" | 7 => "7" | 8 => "8" | 9 => "9" | 10 => "a" | 11 => "b"
  | 12 => "c" | 13 => "d" | 14 => "e" | _ => "f"
  end%N%char.

(** Below 256 the non-printable code points are the two control blocks,
    DEL, the no-break space and the soft hyphen. *)
Definition printable (c : ascii) : bool :=
  let n := N_of_ascii c in
  negb ((n <? 32) || (n =? 127) || ((128 <=? n) && (n <=? 160)) || (n =? 173))%N.

Definition repr_char (quote c : ascii) : string :=
  if bool_decide (c = quote) || bool_decide (c = ch_backslash)
  then String ch_backslash (str1 c)
  else if bool_decide (c = ch_tab) then String ch_backslash "t"
  else if bool_decide (c = ch_newline) then String ch_backslash "n"
  else if bool_decide (c = ch_return) then String ch_backslash "r"
  else if printable c then str1 c
  else let n := N_of_ascii c in
       String ch_backslash
         (String "x" (String (hex_digit (n / 16)) (str1 (hex_digit (n mod 16)))))%N.

Fixpoint repr_body (quote : ascii) (s : string) : string :=
  match s with
  | EmptyString => ""
  | String c rest => repr_char quote c +:+ repr_body quote rest
  end.

Definition py_repr (s : string) : string :=
  let quote :=
    if str_contains ch_squote s && negb (str_contains ch_dquote s)
    then ch_dquote else ch_squote in
  String quote (repr_body quote s +:+ str1 quote).

(** ["%s" % lst] for a list of strings. *)
Definition str_of_list (l : list string) : string :=
  "[" +:+ str_join ", " (py_repr <$> l) +:+ "]".

(** ** [os] and [os.path] *)

(** [os.name]: which of [posixpath] and [ntpath] stands behind [os.path]. *)
Inductive OsName := Posix | Nt.

(** [os.pathsep] *)
Definition pathsep_char (o : OsName) : ascii :=
  match o with Posix => ":" | Nt => ";" end%char.

Definition pathsep (o : OsName) : string := str1 (pathsep_char o).

(** [posixpath.join(a, *p)] *)
Definition posix_join_step (path b : string) : string :=
  if startswith "/" b then b
  else if bool_decide (path = "") || endswith_char "/" path then path +:+ b
  else path +:+ "/" +:+ b.

Definition posix_join (a : string) (p : list string) : string :=
  foldl posix_join_step a p.

(** ** The regular expression [r"^python%d\.\d+$" % python_major]

    [re.match] anchors at the start of the folder name.  The pieces of the
    pattern are matched in turn: the literal [python<major>.] (the dot is
    escaped), one or more decimal digits taken greedily, and [$], which
    holds at the end of the string and also just before a newline that is
    the last character.  Giving back digits cannot help [$], so no
    backtracking is needed. *)

(** [\d] on the code points below 256: the digits 0 to 9.  Above that
    range [\d] also takes the other Unicode decimal digits, which the
    embedding does not represent. *)
Definition is_digit (c : ascii) : bool :=
  let n := N_of_ascii c in ((48 <=? n) && (n <=? 57))%N.

Fixpoint skip_digits (s : string) : string :=
  match s with
  | String c rest => if is_digit c then skip_digits rest else s
  | EmptyString => s
  end.

Definition at_dollar (s : string) : bool :=
  bool_decide (s = "") || bool_decide (s = str1 ch_newline).

Definition digits_then_end (s : string) : bool :=
  match s with
  | String c rest => is_digit c && at_dollar (skip_digits rest)
  | EmptyString => false
  end.

(** A string made of decimal digits only. *)
Fixpoint all_digits (s : string) : bool :=
  match s with
  | EmptyString => true
  | String c rest => is_digit c && all_digits rest
  end.

Definition python_pattern_match (python_major : N) (folder : string) : bool :=
  match strip_prefix ("python" +:+ str_of_int python_major +:+ ".") folder with
  | Some rest => digits_then_end rest
  | None => false
  end.

(** ** The host process *)

(** What the [site] module meets, line after line, in the [.pth] files of
    a site directory: a line naming a directory; a line that starts with
    [import], which is executed and may rewrite [sys.path] in any way; and
    bytes that the text reader cannot decode. *)
Inductive PthLine :=
  | PthDir (dir : string)
  | PthImport (run : list string → list string)
  | PthUndecodable.

(** What [init_framework] reads from its host. *)
Record World := mkWorld {
  (** does [from sgtk.platform.qt import QtCore] succeed? *)
  qt_importable : bool;
  (** [platform.system()] *)
  platform_system : string;
  (** [sys.version_info[0]] and [sys.version_info[1]] *)
  version_major : N;
  version_minor : N;
  (** [os.name] *)
  os_name : OsName;
  (** [os.path.dirname(__file__)] *)
  framework_dir : string;
  (** [os.path.realpath] *)
  realpath : string → string;
  (** [ntpath.join], taken from the host; [posixpath.join] is written out *)
  ntpath_join : string → list string → string;
  (** the entries [os.listdir] returns, [None] when it raises [OSError] *)
  dir_entries : string → option (list string);
  (** [os.path.exists] *)
  path_exists : string → bool;
  (** the key under which the [site] module remembers a directory,
      [os.path.normcase(os.path.abspath(d))] *)
  site_key : string → string;
  (** the lines of the [.pth] files of a site directory, in the order the
      [site] module reads them, with the directories they name made
      absolute; a file is cut after a line whose code raises *)
  pth_lines : string → list PthLine;
}.

(** The mutable part of the process, and the directories the framework
    itself has listed so far. *)
Record Process := mkProcess {
  environ : gmap string string;
  sys_path : list string;
  sys_prefix : string;
  sys_real_prefix : option string;
  listdir_calls : list string;
}.

Inductive PyExn :=
  | ValueError (msg : string)
  | RuntimeError (msg : string)
  | OSError (filename : string)
  | UnicodeDecodeError.

(** A call either returns a value or raises, and leaves a process state
    behind in both cases. *)
Inductive Outcome (A : Type) :=
  | Returned (a : A) (p : Process)
  | Raised (e : PyExn) (p : Process).
Arguments Returned {A} a p.
Arguments Raised {A} e p.

Definition M (A : Type) : Type := Process → Outcome A.

Definition ret {A} (a : A) : M A := λ p, Returned a p.

Definition bind {A B} (m : M A) (k : A → M B) : M B :=
  λ p, match m p with
       | Returned a p' => k a p'
       | Raised e p' => Raised e p'
       end.

Definition raise {A} (e : PyExn) : M A := λ p, Raised e p.

Definition gets {A} (f : Process → A) : M A := λ p, Returned (f p) p.

Definition modify (f : Process → Process) : M unit := λ p, Returned tt (f p).

#[global] Instance M_ret : MRet M := @ret.
#[global] Instance M_bind : MBind M := λ A B k m, bind m k.

Definition set_environ (name value : string) (p : Process) : Process :=
  mkProcess (<[name := value]> (environ p)) (sys_path p) (sys_prefix p)
    (sys_real_prefix p) (listdir_calls p).

Definition set_sys_path (path : list string) (p : Process) : Process :=
  mkProcess (environ p) path (sys_prefix p) (sys_real_prefix p) (listdir_calls p).

Definition set_sys_prefix (prefix : string) (p : Process) : Process :=
  mkProcess (environ p) (sys_path p) prefix (sys_real_prefix p) (listdir_calls p).

Definition set_sys_real_prefix (prefix : string) (p : Process) : Process :=
  mkProcess (environ p) (sys_path p) (sys_prefix p) (Some prefix) (listdir_calls p).

Definition log_listdir (dir : string) (p : Process) : Process :=
  mkProcess (environ p) (sys_path p) (sys_prefix p) (sys_real_prefix p)
    (listdir_calls p ++ [dir]).

(** [os.path.join] *)
Definition path_join (w : World) (a : string) (p : list string) : string :=
  match os_name w with
  | Posix => posix_join a p
  | Nt => ntpath_join w a p
  end.

(** [os.listdir(dir)] *)
Definition os_listdir (w : World) (dir : string) : M (list string) :=
  modify (log_listdir dir);;
  match dir_entries w dir with
  | Some names => ret names
  | None => raise (OSError dir)
  end.

(** [os.environ.get(name, default)] *)
Definition environ_get (name fallback : string) : M string :=
  gets (λ p, default fallback (environ p !! name)).

(** ** [site.addsitedir]

    The directory is appended to [sys.path] unless it is already known.
    Then, if the directory can be listed, the lines of its [.pth] files are
    gone through: a directory line appends the directory unless it is known
    or does not exist; an [import] line is executed, and errors of its code
    are caught; undecodable bytes raise [UnicodeDecodeError], which nothing
    in [site.addsitedir] catches.  The known directories are those entries
    of [sys.path] that exist, under their [site_key]; code run by an
    [import] line does not change them.  [init_framework] passes a path
    that extends a [realpath] by plain names, which [makepath] leaves as it
    is. *)

Definition init_pathinfo (w : World) (path : list string) : gset string :=
  list_to_set (site_key w <$> List.filter (path_exists w) path).

Definition site_append (w : World) (must_exist : bool) (dir : string)
    (st : list string * gset string) : list string * gset string :=
  if bool_decide (site_key w dir ∈ st.2) then st
  else if must_exist && negb (path_exists w dir) then st
  else (st.1 ++ [dir], {[site_key w dir]} ∪ st.2).

(** The lines [site.addsitedir] reads: none when the directory is missing,
    since [os.listdir] then fails and the function returns. *)
Definition site_lines (w : World) (sitedir : string) : list PthLine :=
  if path_exists w sitedir then pth_lines w sitedir else [].

(** How [site.addsitedir] ends, and the [sys.path] it leaves. *)
Inductive SiteOutcome :=
  | SiteDone (path : list string)
  | SiteDecodeError (path : list string).

Fixpoint run_pth_lines (w : World) (lines : list PthLine)
    (st : list string * gset string) : SiteOutcome :=
  match lines with
  | [] => SiteDone st.1
  | PthDir dir :: rest => run_pth_lines w rest (site_append w true dir st)
  | PthImport run :: rest => run_pth_lines w rest (run st.1, st.2)
  | PthUndecodable :: _ => SiteDecodeError st.1
  end.

Definition addsitedir_path (w : World) (sitedir : string) (path : list string)
    : SiteOutcome :=
  run_pth_lines w (site_lines w sitedir)
    (site_append w false sitedir (path, init_pathinfo w path)).

Definition site_addsitedir (w : World) (sitedir : string) : M unit :=
  λ p, match addsitedir_path w sitedir (sys_path p) with
       | SiteDone path => Returned tt (set_sys_path path p)
       | SiteDecodeError path => Raised UnicodeDecodeError (set_sys_path path p)
       end.

(** ** [UnrealQtFramework.platform_name] *)

Definition platform_names : gmap string string :=
  <["Darwin" := "osx"]> (<["Linux" := "linux"]> (<["Windows" := "windows"]> ∅)).

(** [not pname], for the result of [dict.get] *)
Definition falsy (pname : option string) : bool :=
  match pname with
  | None => true
  | Some s => bool_decide (s = "")
  end.

Definition platform_name (w : World) : M string :=
  let pname := platform_names !! platform_system w in
  if falsy pname
  then raise (ValueError ("Platform " +:+ platform_system w +:+ " is not supported"))
  else ret (default "" pname).

(** ** [UnrealQtFramework.bin_folder] *)

Definition bin_folder (w : World) (vendor : option string) : M string :=
  pname ← platform_name w;
  match vendor with
  | Some v =>
      if bool_decide (v = "")
      then ret (path_join w (framework_dir w) ["vendors"; "bin"; pname])
      else ret (path_join w (framework_dir w) ["vendors"; v; "bin"; pname])
  | None => ret (path_join w (framework_dir w) ["vendors"; "bin"; pname])
  end.

(** ** [UnrealQtFramework.init_framework] *)

(** The local [bin_folder], lines 48-51 *)
Definition bin_folder_name (pname : string) : string :=
  if bool_decide (pname = "windows") then "Scripts" else "bin".

(** [base_path], lines 58-66 *)
Definition base_path (w : World) (pname : string) : string :=
  realpath w
    (path_join w (framework_dir w)
       ["python"; "vendors";
        "py" +:+ str_of_int (version_major w) +:+ "." +:+ str_of_int (version_minor w);
        pname]).

(** The [for ... else] loop of lines 79-88: [Some folder] when the loop
    leaves through [break] with the loop variable [folder], [None] when it
    runs to its [else] branch. *)
Fixpoint find_lib_folder (python_major : N) (lib_folders : list string)
    : option string :=
  match lib_folders with
  | [] => None
  | folder :: rest =>
      if python_pattern_match python_major folder then Some folder
      else find_lib_folder python_major rest
  end.

(** [site_path], lines 69-94 *)
Definition resolve_site_path (w : World) (pname base : string) : M string :=
  if bool_decide (pname = "windows")
  then ret (path_join w base ["Lib"; "site-packages"])
  else
    lib_folders ← os_listdir w (path_join w base ["lib"]);
    match find_lib_folder (version_major w) lib_folders with
    | Some folder => ret (path_join w base ["lib"; folder; "site-packages"])
    | None =>
        raise (RuntimeError
                 ("Couldn't find python libraries for Python "
                  +:+ str_of_int (version_major w) +:+ " from "
                  +:+ str_of_list lib_folders))
    end.

(** The mutations of lines 96-109, in the order of the source. *)
Definition mutate_process (w : World) (pname base site_path : string) : M unit :=
  modify (set_environ "VIRTUAL_ENV" base);;
  old_path ← environ_get "PATH" "";
  modify (set_environ "PATH"
            (str_join (pathsep (os_name w))
               (path_join w base [bin_folder_name pname]
                :: str_split (pathsep_char (os_name w)) old_path)));;
  prev_length ← gets (λ p, length (sys_path p));
  site_addsitedir w site_path;;
  modify (λ p, set_sys_path (drop prev_length (sys_path p)
                              ++ take prev_length (sys_path p)) p);;
  prefix ← gets sys_prefix;
  modify (set_sys_real_prefix prefix);;
  modify (set_sys_prefix base).

Definition init_framework (w : World) : M unit :=
  if qt_importable w then ret tt
  else
    pname ← platform_name w;
    let base := base_path w pname in
    site_path ← resolve_site_path w pname base;
    mutate_process w pname base site_path.

(** ** [UnrealQtFramework.destroy_framework]

    Lines 111-112: the method only logs. *)
Definition destroy_framework : M unit := ret tt.

(** ** Notions used in the statements *)

(** What [posixpath.join] puts between [path] and a relative component
    that follows it. *)
Definition posix_sep_after (path : string) : string :=
  if bool_decide (path = "") || endswith_char "/" path then "" else "/".

(** The keys the [site] module knows once it has gone through the [.pth]
    directories [dirs], starting from the keys [known]. *)
Definition pth_known (w : World) (known : gset string) (dirs : list string)
    : gset string :=
  (foldl (λ st dir, site_append w true dir st) ([], known) dirs).2.


(** The directories named by the directory lines that [site.addsitedir]
    reads for a site directory. *)
Definition pth_line_dir (line : PthLine) : option string :=
  match line with
  | PthDir dir => Some dir
  | PthImport _ | PthUndecodable => None
  end.

Definition pth_dirs (w : World) (sitedir : string) : list string :=
  omap pth_line_dir (site_lines w sitedir).

(** The [.pth] files of a site directory hold directory lines only: no
    line is executed and every line can be decoded. *)
Definition plain_pth (w : World) (sitedir : string) : Prop :=
  site_lines w sitedir = PthDir <$> pth_dirs w sitedir.

(** The entries [site.addsitedir] appends for the [.pth] files, given the
    directories known so far. *)
Definition pth_appended (w : World) (known : gset string) (dirs : list string)
    : list string :=
  (foldl (λ st dir, site_append w true dir st) ([], known) dirs).1.

(** All the entries [site.addsitedir(sitedir)] appends to [path]. *)
Definition addsitedir_appended (w : World) (sitedir : string) (path : list string)
    : list string :=
  let known := init_pathinfo w path in
  if bool_decide (site_key w sitedir ∈ known)
  then pth_appended w known (pth_dirs w sitedir)
  else sitedir :: pth_appended w ({[site_key w sitedir]} ∪ known) (pth_dirs w sitedir).

(** A run of [init_framework] that went past the probe and returned: the
    source logs "not activating any custom package" when the probe
    succeeds, so only such a run is an activation. *)
Definition activates (w : World) (p p' : Process) : Prop :=
  qt_importable w = false ∧ init_framework w p = Returned tt p'.

(** The library directory leads [sys.path] after an activation, whatever
    [sys.path] held before. *)
Definition library_dir_leads (w : World) (p : Process) : Prop :=
  ∀ pname site_path q p',
    platform_name w p = Returned pname p →
    resolve_site_path w pname (base_path w pname) p = Returned site_path q →
    activates w p p' →
    ∃ added, sys_path p' = site_path :: added ++ sys_path p.

(** ** Sample hosts *)

Definition linux_world (entries : list string) : World :=
  {| qt_importable := false;
     platform_system := "Linux";
     version_major := 3;
     version_minor := 9;
     os_name := Posix;
     framework_dir := "/opt/app";
     realpath := λ d, d;
     ntpath_join := λ a _, a;
     dir_entries := λ d,
       if bool_decide (d = "/opt/app/python/vendors/py3.9/linux/lib")
       then Some entries else None;
     path_exists := λ _, true;
     site_key := λ d, d;
     pth_lines := λ _, [] |}.

Definition windows_world : World :=
  {| qt_importable := false;
     platform_system := "Windows";
     version_major := 3;
     version_minor := 9;
     os_name := Nt;
     framework_dir := "C:\app";
     realpath := λ d, d;
     ntpath_join := λ a parts, str_join "\" (a :: parts);
     dir_entries := λ _, None;
     path_exists := λ _, true;
     site_key := λ d, d;
     pth_lines := λ d, [PthDir (d +:+ "\extra")] |}.

(** A host the framework does not know. *)
Definition beos_world : World :=
  {| qt_importable := false;
     platform_system := "BeOS";
     version_major := 3;
     version_minor := 9;
     os_name := Posix;
     framework_dir := "/opt/app";
     realpath := λ d, d;
     ntpath_join := λ a _, a;
     dir_entries := λ _, None;
     path_exists := λ _, true;
     site_key := λ d, d;
     pth_lines := λ _, [] |}.

(** A host on which Qt is importable already. *)
Definition qt_world : World :=
  {| qt_importable := true;
     platform_system := "Linux";
     version_major := 3;
     version_minor := 9;
     os_name := Posix;
     framework_dir := "/opt/app";
     realpath := λ d, d;
     ntpath_join := λ a _, a;
     dir_entries := λ _, None;
     path_exists := λ _, true;
     site_key := λ d, d;
     pth_lines := λ _, [] |}.

Definition linux_site_packages : string :=
  "/opt/app/python/vendors/py3.9/linux/lib/python3.9/site-packages".

Definition fresh_process : Process :=
  {| environ := <["PATH" := "/usr/bin:/bin"]> ∅;
     sys_path := ["/usr/lib/python3.9"; "/usr/lib/python3.9/lib-dynload"];
     sys_prefix := "/usr";
     sys_real_prefix := None;
     listdir_calls := [] |}.

(** [fresh_process] after [init_framework] on [linux_world ["python3.9"]]. *)
Definition fresh_process_activated : Process :=
  {| environ :=
       <["PATH" := "/opt/app/python/vendors/py3.9/linux/bin:/usr/bin:/bin"]>
         (<["VIRTUAL_ENV" := "/opt/app/python/vendors/py3.9/linux"]>
            (<["PATH" := "/usr/bin:/bin"]> ∅));
     sys_path := [linux_site_packages;
                  "/usr/lib/python3.9"; "/usr/lib/python3.9/lib-dynload"];
     sys_prefix := "/opt/app/python/vendors/py3.9/linux";
     sys_real_prefix := Some "/usr";
     listdir_calls := ["/opt/app/python/vendors/py3.9/linux/lib"] |}.

(** [fresh_process] once the framework has listed the [lib] folder. *)
Definition fresh_process_listed : Process :=
  log_listdir "/opt/app/python/vendors/py3.9/linux/lib" fresh_process.

Definition windows_process : Process :=
  {| environ := <["PATH" := "C:\Windows;C:\Python39"]> ∅;
     sys_path := ["C:\Python39\Lib"];
     sys_prefix := "C:\Python39";
     sys_real_prefix := Some "C:\Elsewhere";
     listdir_calls := [] |}.

(** [windows_process] after [init_framework] on [windows_world]. *)
Definition windows_process_activated : Process :=
  {| environ :=
       <["PATH" := "C:\app\python\vendors\py3.9\windows\Scripts;C:\Windows;C:\Python39"]>
         (<["VIRTUAL_ENV" := "C:\app\python\vendors\py3.9\windows"]>
            (<["PATH" := "C:\Windows;C:\Python39"]> ∅));
     sys_path := ["C:\app\python\vendors\py3.9\windows\Lib\site-packages";
                  "C:\app\python\vendors\py3.9\windows\Lib\site-packages\extra";
                  "C:\Python39\Lib"];
     sys_prefix := "C:\app\python\vendors\py3.9\windows";
     sys_real_prefix := Some "C:\Python39";
     listdir_calls := [] |}.

(** A process whose [sys.path] already holds the vendored library
    directory, behind another entry. *)
Definition primed_process : Process :=
  {| environ := <["PATH" := "/usr/bin:/bin"]> ∅;
     sys_path := ["/usr/lib/python3.9"; linux_site_packages];
     sys_prefix := "/usr";
     sys_real_prefix := None;
     listdir_calls := [] |}.

(** [primed_process] after [init_framework] on [linux_world ["python3.9"]]:
    [sys.path] is as it was. *)
Definition primed_process_activated : Process :=
  {| environ :=
       <["PATH" := "/opt/app/python/vendors/py3.9/linux/bin:/usr/bin:/bin"]>
         (<["VIRTUAL_ENV" := "/opt/app/python/vendors/py3.9/linux"]>
            (<["PATH" := "/usr/bin:/bin"]> ∅));
     sys_path := ["/usr/lib/python3.9"; linux_site_packages];
     sys_prefix := "/opt/app/python/vendors/py3.9/linux";
     sys_real_prefix := Some "/usr";
     listdir_calls := ["/opt/app/python/vendors/py3.9/linux/lib"] |}.

Definition windows_site_packages : string :=
  "C:\app\python\vendors\py3.9\windows\Lib\site-packages".

(** A Linux host whose vendor tree is missing. *)
Definition bare_linux_world : World :=
  {| qt_importable := false;
     platform_system := "Linux";
     version_major := 3;
     version_minor := 9;
     os_name := Posix;
     framework_dir := "/opt/app";
     realpath := λ d, d;
     ntpath_join := λ a _, a;
     dir_entries := λ _, None;
     path_exists := λ _, false;
     site_key := λ d, d;
     pth_lines := λ _, [] |}.

(** A Linux host whose vendor tree lists a [python3.9] folder that has no
    [site-packages] directory. *)
Definition hollow_linux_world : World :=
  {| qt_importable := false;
     platform_system := "Linux";
     version_major := 3;
     version_minor := 9;
     os_name := Posix;
     framework_dir := "/opt/app";
     realpath := λ d, d;
     ntpath_join := λ a _, a;
     dir_entries := λ _, Some ["python3.9"];
     path_exists := λ d, negb (bool_decide (d = linux_site_packages));
     site_key := λ d, d;
     pth_lines := λ _, [] |}.

(** A Linux host whose library directory holds a [.pth] file with the
    line [import sys; sys.path.insert(0, "/opt/egg")]. *)
Definition import_linux_world : World :=
  {| qt_importable := false;
     platform_system := "Linux";
     version_major := 3;
     version_minor := 9;
     os_name := Posix;
     framework_dir := "/opt/app";
     realpath := λ d, d;
     ntpath_join := λ a _, a;
     dir_entries := λ _, Some ["python3.9"];
     path_exists := λ _, true;
     site_key := λ d, d;
     pth_lines := λ _, [PthImport (λ path, "/opt/egg" :: path)] |}.

(** [fresh_process] after [init_framework] on [import_linux_world]. *)
Definition import_process_activated : Process :=
  {| environ := environ fresh_process_activated;
     sys_path := ["/usr/lib/python3.9/lib-dynload"; linux_site_packages;
                  "/opt/egg"; "/usr/lib/python3.9"];
     sys_prefix := "/opt/app/python/vendors/py3.9/linux";
     sys_real_prefix := Some "/usr";
     listdir_calls := ["/opt/app/python/vendors/py3.9/linux/lib"] |}.

(** A Linux host whose library directory holds a [.pth] file with a
    directory line followed by bytes that cannot be decoded. *)
Definition garbled_linux_world : World :=
  {| qt_importable := false;
     platform_system := "Linux";
     version_major := 3;
     version_minor := 9;
     os_name := Posix;
     framework_dir := "/opt/app";
     realpath := λ d, d;
     ntpath_join := λ a _, a;
     dir_entries := λ _, Some ["python3.9"];
     path_exists := λ _, true;
     site_key := λ d, d;
     pth_lines := λ _, [PthDir "/opt/extra"; PthUndecodable] |}.

(** [fresh_process] when [init_framework] raises on [garbled_linux_world]. *)
Definition fresh_process_garbled : Process :=
  {| environ := environ fresh_process_activated;
     sys_path := ["/usr/lib/python3.9"; "/usr/lib/python3.9/lib-dynload";
                  linux_site_packages; "/opt/extra"];
     sys_prefix := "/usr";
     sys_real_prefix := None;
     listdir_calls := ["/opt/app/python/vendors/py3.9/linux/lib"] |}.

(** [fresh_process] after two runs of [init_framework] on
    [linux_world ["python3.9"]]. *)
Definition fresh_process_reactivated : Process :=
  {| environ :=
       <["PATH" := "/opt/app/python/vendors/py3.9/linux/bin:/opt/app/python/vendors/py3.9/linux/bin:/usr/bin:/bin"]>
         (<["VIRTUAL_ENV" := "/opt/app/python/vendors/py3.9/linux"]>
            (environ fresh_process_activated));
     sys_path := [linux_site_packages;
                  "/usr/lib/python3.9"; "/usr/lib/python3.9/lib-dynload"];
     sys_prefix := "/opt/app/python/vendors/py3.9/linux";
     sys_real_prefix := Some "/opt/app/python/vendors/py3.9/linux";
     listdir_calls := ["/opt/app/python/vendors/py3.9/linux/lib";
                       "/opt/app/python/vendors/py3.9/linux/lib"] |}.

Example python_pattern_match_39 : python_pattern_match 3 "python3.9" = true.
Proof. reflexivity. Qed.

Example python_pattern_match_310 : python_pattern_match 3 "python3.10" = true.
Proof. reflexivity. Qed.

Example python_pattern_match_upper : python_pattern_match 3 "Python3.9" = false.
Proof. reflexivity. Qed.

Example python_pattern_match_suffix : python_pattern_match 3 "python3.9m" = false.
Proof. reflexivity. Qed.

Example python_pattern_match_nodigit : python_pattern_match 3 "python3." = false.
Proof. reflexivity. Qed.

Example python_pattern_match_major : python_pattern_match 3 "python2.7" = false.
Proof. reflexivity. Qed.

Example str_split_path : str_split ":" "/usr/bin::/bin" = ["/usr/bin"; ""; "/bin"].
Proof. reflexivity. Qed.

Example str_of_list_ex : str_of_list ["a"; "it's"] = "['a', " +:+ str1 ch_dquote +:+ "it's" +:+ str1 ch_dquote +:+ "]".
Proof. reflexivity. Qed.

Example init_framework_linux :
  init_framework (linux_world ["python3.9"]) fresh_process
  = Returned tt fresh_process_activated.
Proof. vm_compute. reflexivity. Qed.

Example init_framework_windows :
  init_framework windows_world windows_process
  = Returned tt windows_process_activated.
Proof. vm_compute. reflexivity. Qed.

Example init_framework_primed :
  init_framework (linux_world ["python3.9"]) primed_process
  = Returned tt primed_process_activated.
Proof. vm_compute. reflexivity. Qed.

Example py_repr_escapes :
  py_repr ("a" +:+ str1 ch_tab +:+ str1 "001" +:+ str1 "160" +:+ "'")
  = str1 ch_dquote +:+ "a\t\x01\xa0'" +:+ str1 ch_dquote.
Proof. reflexivity. Qed.

Example posix_join_absolute : posix_join "/a" ["b"; "/c"; "d"] = "/c/d".
Proof. reflexivity. Qed.

Example init_framework_import_line :
  init_framework import_linux_world fresh_process
  = Returned tt import_process_activated.
Proof. vm_compute. reflexivity. Qed.

Example init_framework_garbled :
  init_framework garbled_linux_world fresh_process
  = Raised UnicodeDecodeError fresh_process_garbled.
Proof. vm_compute. reflexivity. Qed.

Example python_pattern_match_dollar :
  python_pattern_match 3 ("python3.9" +:+ str1 ch_newline) = true.
Proof. reflexivity. Qed.

Example python_pattern_match_two_lines :
  python_pattern_match 3 ("python3.9" +:+ str1 ch_newline +:+ "x") = false.
Proof. reflexivity. Qed.

(** ** Facts about the string primitives *)

Lemma str_split_nonempty sep s : str_split sep s ≠ [].
Proof.
  destruct s as [|c rest]; simpl; [done|].
  case_bool_decide; [done|]. by destruct (str_split sep rest).
Qed.

Lemma str_join_cons sep s parts :
  parts ≠ [] → str_join sep (s :: parts) = s +:+ sep +:+ str_join sep parts.
Proof. by destruct parts. Qed.

Lemma str_join_split sep s : str_join (str1 sep) (str_split sep s) = s.
Proof.
  induction s as [|c rest IH]; simpl; [done|].
  case_bool_decide as Hc.
  - rewrite str_join_cons by apply str_split_nonempty.
    rewrite IH. by subst.
  - destruct (str_split sep rest) as [|piece pieces] eqn:Hsplit.
    + by destruct (str_split_nonempty sep rest).
    + destruct pieces as [|piece' pieces]; simpl in *; by rewrite <- IH.
Qed.

(** ** Facts about the pattern *)

Lemma str_app_cons c (a b : string) : String c a +:+ b = String c (a +:+ b).
Proof. reflexivity. Qed.

Lemma str_app_nil_r (s : string) : s +:+ "" = s.
Proof. induction s as [|c s IH]; [done|]. by rewrite str_app_cons, IH. Qed.

Lemma strip_prefix_Some prefix s rest :
  strip_prefix prefix s = Some rest ↔ s = prefix +:+ rest.
Proof.
  revert s. induction prefix as [|a prefix IH]; intros s; simpl.
  - split; [by intros [= ->] | by intros ->].
  - rewrite ?str_app_cons. destruct s as [|b s]; [done|].
    case_bool_decide as Hab.
    + subst b. rewrite IH. split; [by intros -> | by intros [= ->]].
    + split; [done | intros [= ? _]; done].
Qed.

Lemma skip_digits_split s :
  ∃ digits, all_digits digits = true ∧ s = digits +:+ skip_digits s.
Proof.
  induction s as [|c s (digits & Hdigits & Hs)]; simpl.
  - by exists "".
  - destruct (is_digit c) eqn:Hc.
    + exists (String c digits). simpl. rewrite Hc, Hdigits, ?str_app_cons.
      split; [done | by rewrite <- Hs].
    + by exists "".
Qed.

Lemma skip_digits_app digits tail :
  all_digits digits = true →
  skip_digits (digits +:+ tail) = skip_digits tail.
Proof.
  induction digits as [|c digits IH]; [done|].
  simpl. intros [Hc Hdigits]%andb_prop.
  rewrite ?str_app_cons. simpl. rewrite Hc. auto.
Qed.

Lemma digits_then_end_spec s :
  digits_then_end s = true ↔
  ∃ digits,
    digits ≠ "" ∧ all_digits digits = true ∧
    (s = digits ∨ s = digits +:+ str1 ch_newline).
Proof.
  split.
  - destruct s as [|c rest]; simpl; [done|].
    intros [Hc Hend]%andb_prop.
    destruct (skip_digits_split rest) as (digits & Hdigits & Hrest).
    exists (String c digits). simpl. rewrite Hc, Hdigits, ?str_app_cons.
    split_and!; [done|done|].
    unfold at_dollar in Hend. apply orb_prop in Hend as [Hend|Hend];
      apply bool_decide_eq_true_1 in Hend; rewrite Hend in Hrest.
    + left. rewrite str_app_nil_r in Hrest. by rewrite <- Hrest.
    + right. by rewrite <- Hrest.
  - intros (digits & Hne & Hdigits & Hs).
    destruct digits as [|c digits]; [done|].
    simpl in Hdigits. apply andb_prop in Hdigits as [Hc Hdigits].
    destruct Hs as [-> | ->]; rewrite ?str_app_cons; simpl; rewrite Hc; simpl.
    + rewrite <- (str_app_nil_r digits). by rewrite skip_digits_app.
    + by rewrite skip_digits_app.
Qed.

(** Among the names the embedding represents (code points below 256), the
    pattern accepts [python<major>.<digits>] and the same followed by one
    newline, which [$] lets through. *)
Lemma python_pattern_match_spec major folder :
  python_pattern_match major folder = true ↔
  ∃ digits,
    digits ≠ "" ∧ all_digits digits = true ∧
    (folder = ("python" +:+ str_of_int major +:+ ".") +:+ digits ∨
     folder = ("python" +:+ str_of_int major +:+ ".") +:+ digits +:+ str1 ch_newline).
Proof.
  unfold python_pattern_match.
  destruct (strip_prefix _ folder) as [rest|] eqn:Hrest.
  - apply strip_prefix_Some in Hrest. rewrite digits_then_end_spec.
    split; intros (digits & Hne & Hdigits & Hs); exists digits;
      (split_and!; [done|done|]).
    + destruct Hs as [-> | ->]; [by left | by right].
    + rewrite Hrest in Hs.
      destruct Hs as [Hs|Hs]; [left|right]; by apply (inj _) in Hs.
  - split; [done|].
    intros (digits & _ & _ & Hs).
    assert (is_Some (strip_prefix ("python" +:+ str_of_int major +:+ ".") folder))
      as [rest Hsome]; [|congruence].
    destruct Hs as [-> | ->]; eexists; by apply strip_prefix_Some.
Qed.

Lemma find_lib_folder_first major before folder after :
  Forall (λ e, python_pattern_match major e = false) before →
  python_pattern_match major folder = true →
  find_lib_folder major (before ++ folder :: after) = Some folder.
Proof.
  intros Hbefore Hfolder.
  induction Hbefore as [|e before He _ IH]; simpl.
  - by rewrite Hfolder.
  - by rewrite He.
Qed.

Lemma find_lib_folder_none major entries :
  Forall (λ e, python_pattern_match major e = false) entries →
  find_lib_folder major entries = None.
Proof.
  induction 1 as [|e entries He _ IH]; simpl; [done|]. by rewrite He.
Qed.

Lemma find_lib_folder_some major entries folder :
  find_lib_folder major entries = Some folder →
  ∃ before after,
    entries = before ++ folder :: after ∧
    Forall (λ e, python_pattern_match major e = false) before ∧
    python_pattern_match major folder = true.
Proof.
  induction entries as [|e entries IH]; simpl; [done|].
  destruct (python_pattern_match major e) eqn:He.
  - intros [= ->]. by exists [], entries.
  - intros (before & after & -> & Hbefore & Hfolder)%IH.
    exists (e :: before), after. split_and!; [done| |done].
    by constructor.
Qed.

(** ** Facts about the monad and the two helpers *)

Lemma platform_name_state w p :
  match platform_name w p with
  | Returned _ q | Raised _ q => q = p
  end.
Proof. unfold platform_name. by destruct (falsy _). Qed.

Lemma resolve_site_path_windows w base p :
  resolve_site_path w "windows" base p
  = Returned (path_join w base ["Lib"; "site-packages"]) p.
Proof. reflexivity. Qed.

Lemma resolve_site_path_listing w pname base p :
  pname ≠ "windows" →
  resolve_site_path w pname base p =
  let q := log_listdir (path_join w base ["lib"]) p in
  match dir_entries w (path_join w base ["lib"]) with
  | None => Raised (OSError (path_join w base ["lib"])) q
  | Some lib_folders =>
      match find_lib_folder (version_major w) lib_folders with
      | Some folder =>
          Returned (path_join w base ["lib"; folder; "site-packages"]) q
      | None =>
          Raised (RuntimeError
                    ("Couldn't find python libraries for Python "
                     +:+ str_of_int (version_major w) +:+ " from "
                     +:+ str_of_list lib_folders)) q
      end
  end.
Proof.
  intros Hp. unfold resolve_site_path. rewrite bool_decide_eq_false_2 by done.
  unfold mbind, M_bind, bind, os_listdir, mbind, M_bind, bind, modify. simpl.
  destruct (dir_entries w _) as [lib_folders|]; [|done].
  unfold ret. by destruct (find_lib_folder _ _).
Qed.

Lemma resolve_site_path_frame w pname base p :
  match resolve_site_path w pname base p with
  | Returned _ q | Raised _ q =>
      environ q = environ p ∧ sys_path q = sys_path p ∧
      sys_prefix q = sys_prefix p ∧ sys_real_prefix q = sys_real_prefix p
  end.
Proof.
  destruct (decide (pname = "windows")) as [->|Hp].
  - by rewrite resolve_site_path_windows.
  - rewrite resolve_site_path_listing by done. simpl.
    destruct (dir_entries w _) as [lib_folders|]; [|done].
    by destruct (find_lib_folder _ _).
Qed.

(** ** Facts about [site.addsitedir] *)

Lemma site_append_app w must_exist dir path added known :
  site_append w must_exist dir (path ++ added, known)
  = (path ++ (site_append w must_exist dir (added, known)).1,
     (site_append w must_exist dir (added, known)).2).
Proof.
  unfold site_append; simpl.
  case_bool_decide; [done|].
  destruct (must_exist && negb (path_exists w dir)); simpl; [done|].
  by rewrite (assoc_L (++)).
Qed.

Lemma foldl_site_append_app w dirs path added known :
  foldl (λ st dir, site_append w true dir st) (path ++ added, known) dirs
  = (path ++ (foldl (λ st dir, site_append w true dir st) (added, known) dirs).1,
     (foldl (λ st dir, site_append w true dir st) (added, known) dirs).2).
Proof.
  revert added known.
  induction dirs as [|dir dirs IH]; intros added known; simpl; [done|].
  rewrite site_append_app.
  destruct (site_append w true dir (added, known)) as [added' known'] eqn:Hst.
  simpl. by rewrite IH.
Qed.

Lemma foldl_site_append_fst w dirs path known :
  (foldl (λ st dir, site_append w true dir st) (path, known) dirs).1
  = path ++ pth_appended w known dirs.
Proof.
  unfold pth_appended.
  pose proof (foldl_site_append_app w dirs path [] known) as Happ.
  rewrite (right_id_L [] (++)) in Happ. by rewrite Happ.
Qed.

Lemma site_append_sitedir w sitedir path known :
  site_append w false sitedir (path, known)
  = if bool_decide (site_key w sitedir ∈ known) then (path, known)
    else (path ++ [sitedir], {[site_key w sitedir]} ∪ known).
Proof. reflexivity. Qed.

Lemma run_pth_lines_plain w dirs st :
  run_pth_lines w (PthDir <$> dirs) st
  = SiteDone (foldl (λ st dir, site_append w true dir st) st dirs).1.
Proof.
  revert st. induction dirs as [|dir dirs IH]; intros st; simpl; [done|].
  apply IH.
Qed.

Lemma run_pth_lines_done_any w lines st st2 path :
  run_pth_lines w lines st = SiteDone path →
  ∃ path2, run_pth_lines w lines st2 = SiteDone path2.
Proof.
  revert st st2. induction lines as [|[dir|run|] lines IH]; intros st st2; simpl.
  - intros _. by eexists.
  - apply IH.
  - apply IH.
  - done.
Qed.

Lemma addsitedir_path_done_any w sitedir path path2 r :
  addsitedir_path w sitedir path = SiteDone r →
  ∃ r2, addsitedir_path w sitedir path2 = SiteDone r2.
Proof. unfold addsitedir_path. apply run_pth_lines_done_any. Qed.

Lemma addsitedir_path_app w sitedir path :
  plain_pth w sitedir →
  addsitedir_path w sitedir path
  = SiteDone (path ++ addsitedir_appended w sitedir path).
Proof.
  intros Hplain. unfold addsitedir_path, addsitedir_appended.
  rewrite Hplain, run_pth_lines_plain. f_equal.
  rewrite site_append_sitedir. cbn zeta. case_bool_decide.
  - apply foldl_site_append_fst.
  - rewrite foldl_site_append_fst. by rewrite <- (assoc_L (++)).
Qed.

Lemma rotate_appended (path added : list string) :
  drop (length path) (path ++ added) ++ take (length path) (path ++ added)
  = added ++ path.
Proof. by rewrite drop_app_length, take_app_length. Qed.

(** ** The shape of a run of [init_framework] *)

Lemma mutate_process_run w pname base site_path p :
  mutate_process w pname base site_path p =
  match addsitedir_path w site_path (sys_path p) with
  | SiteDone path =>
      Returned tt
        {| environ :=
             <["PATH" := path_join w base [bin_folder_name pname]
                         +:+ pathsep (os_name w)
                         +:+ default "" (environ p !! "PATH")]>
               (<["VIRTUAL_ENV" := base]> (environ p));
           sys_path := drop (length (sys_path p)) path
                       ++ take (length (sys_path p)) path;
           sys_prefix := base;
           sys_real_prefix := Some (sys_prefix p);
           listdir_calls := listdir_calls p |}
  | SiteDecodeError path =>
      Raised UnicodeDecodeError
        {| environ :=
             <["PATH" := path_join w base [bin_folder_name pname]
                         +:+ pathsep (os_name w)
                         +:+ default "" (environ p !! "PATH")]>
               (<["VIRTUAL_ENV" := base]> (environ p));
           sys_path := path;
           sys_prefix := sys_prefix p;
           sys_real_prefix := sys_real_prefix p;
           listdir_calls := listdir_calls p |}
  end.
Proof.
  unfold mutate_process, mbind, M_bind, bind, site_addsitedir, modify,
    environ_get, gets, set_environ, set_sys_path, set_sys_prefix,
    set_sys_real_prefix.
  cbn [environ sys_path sys_prefix sys_real_prefix listdir_calls].
  rewrite lookup_insert_ne by done.
  rewrite str_join_cons by apply str_split_nonempty.
  unfold pathsep at 2 4. rewrite str_join_split.
  by destruct (addsitedir_path w site_path (sys_path p)).
Qed.

Lemma mutate_process_returns w pname base site_path p :
  plain_pth w site_path →
  mutate_process w pname base site_path p =
  Returned tt
    {| environ :=
         <["PATH" := path_join w base [bin_folder_name pname]
                     +:+ pathsep (os_name w)
                     +:+ default "" (environ p !! "PATH")]>
           (<["VIRTUAL_ENV" := base]> (environ p));
       sys_path := addsitedir_appended w site_path (sys_path p) ++ sys_path p;
       sys_prefix := base;
       sys_real_prefix := Some (sys_prefix p);
       listdir_calls := listdir_calls p |}.
Proof.
  intros Hplain.
  by rewrite mutate_process_run, addsitedir_path_app, rotate_appended.
Qed.

Lemma mutate_process_returned w pname base site_path p p' :
  mutate_process w pname base site_path p = Returned tt p' →
  environ p'
  = <["PATH" := path_join w base [bin_folder_name pname]
                +:+ pathsep (os_name w)
                +:+ default "" (environ p !! "PATH")]>
      (<["VIRTUAL_ENV" := base]> (environ p)) ∧
  sys_prefix p' = base ∧
  sys_real_prefix p' = Some (sys_prefix p) ∧
  listdir_calls p' = listdir_calls p.
Proof.
  rewrite mutate_process_run.
  destruct (addsitedir_path w site_path (sys_path p)); [|done].
  by intros [= <-].
Qed.

Lemma mutate_process_raised w pname base site_path p e p' :
  mutate_process w pname base site_path p = Raised e p' →
  e = UnicodeDecodeError ∧
  environ p'
  = <["PATH" := path_join w base [bin_folder_name pname]
                +:+ pathsep (os_name w)
                +:+ default "" (environ p !! "PATH")]>
      (<["VIRTUAL_ENV" := base]> (environ p)) ∧
  addsitedir_path w site_path (sys_path p) = SiteDecodeError (sys_path p') ∧
  sys_prefix p' = sys_prefix p ∧
  sys_real_prefix p' = sys_real_prefix p ∧
  listdir_calls p' = listdir_calls p.
Proof.
  rewrite mutate_process_run.
  destruct (addsitedir_path w site_path (sys_path p)); [done|].
  by intros [= <- <-].
Qed.

Lemma init_framework_run w p :
  qt_importable w = false →
  init_framework w p =
  match platform_name w p with
  | Raised e q => Raised e q
  | Returned pname q =>
      match resolve_site_path w pname (base_path w pname) q with
      | Raised e r => Raised e r
      | Returned site_path r =>
          mutate_process w pname (base_path w pname) site_path r
      end
  end.
Proof. intros Hqt. unfold init_framework. by rewrite Hqt. Qed.

Lemma activates_inv w p p' :
  activates w p p' →
  ∃ pname site_path q,
    platform_name w p = Returned pname p ∧
    resolve_site_path w pname (base_path w pname) p = Returned site_path q ∧
    mutate_process w pname (base_path w pname) site_path q = Returned tt p'.
Proof.
  intros [Hqt Hrun]. rewrite init_framework_run in Hrun by done.
  pose proof (platform_name_state w p) as Hstate.
  destruct (platform_name w p) as [pname q|e q]; [|done]. subst q.
  destruct (resolve_site_path w pname (base_path w pname) p)
    as [site_path r|e r] eqn:Hsite; [|done].
  by exists pname, site_path, r.
Qed.

Lemma activates_sys_path w p p' pname site_path q :
  activates w p p' →
  platform_name w p = Returned pname p →
  resolve_site_path w pname (base_path w pname) p = Returned site_path q →
  plain_pth w site_path →
  sys_path p' = addsitedir_appended w site_path (sys_path p) ++ sys_path p.
Proof.
  intros (pname' & site_path' & q' & Hname & Hsite & Hmut)%activates_inv Hn Hs
    Hplain.
  rewrite Hn in Hname. injection Hname as <-.
  rewrite Hs in Hsite. injection Hsite as <- <-.
  rewrite mutate_process_returns in Hmut by done. injection Hmut as <-.
  pose proof (resolve_site_path_frame w pname (base_path w pname) p) as Hframe.
  rewrite Hs in Hframe. destruct Hframe as (_ & -> & _). done.
Qed.

Lemma resolve_site_path_first_match w pname base p before folder after :
  pname ≠ "windows" →
  dir_entries w (path_join w base ["lib"]) = Some (before ++ folder :: after) →
  Forall (λ e, python_pattern_match (version_major w) e = false) before →
  python_pattern_match (version_major w) folder = true →
  resolve_site_path w pname base p
  = Returned (path_join w base ["lib"; folder; "site-packages"])
      (log_listdir (path_join w base ["lib"]) p).
Proof.
  intros Hp Hdir Hbefore Hfolder.
  rewrite resolve_site_path_listing by done. cbn zeta.
  rewrite Hdir. by rewrite find_lib_folder_first.
Qed.

(** * Properties of the activation *)




(** C2.  On a platform whose name is not "windows", the framework lists
    [<base_path>/lib]; when exactly one entry of the listing matches the
    pattern [^python<major>\.\d+$], the library path is
    [<base_path>/lib/<that entry>/site-packages]. *)
Theorem lib_folder_discovery w p pname before folder after :
  platform_name w p = Returned pname p →
  pname ≠ "windows" →
  dir_entries w (path_join w (base_path w pname) ["lib"])
  = Some (before ++ folder :: after) →
  Forall (λ e, python_pattern_match (version_major w) e = false) before →
  python_pattern_match (version_major w) folder = true →
  Forall (λ e, python_pattern_match (version_major w) e = false) after →
  resolve_site_path w pname (base_path w pname) p
  = Returned (path_join w (base_path w pname) ["lib"; folder; "site-packages"])
      (log_listdir (path_join w (base_path w pname) ["lib"]) p).
Proof.
  intros _ Hp Hdir Hbefore Hfolder _.
  by apply (resolve_site_path_first_match w pname _ p before folder after).
Qed.

Lemma lib_folder_discovery_witness :
  resolve_site_path (linux_world ["include"; "python3.9"; "pkgconfig"]) "linux"
    "/opt/app/python/vendors/py3.9/linux" fresh_process
  = Returned linux_site_packages fresh_process_listed.
Proof.
  apply (lib_folder_discovery (linux_world ["include"; "python3.9"; "pkgconfig"])
           fresh_process "linux" ["include"] "python3.9" ["pkgconfig"]).
  - vm_compute; reflexivity.
  - discriminate.
  - vm_compute; reflexivity.
  - repeat constructor.
  - vm_compute; reflexivity.
  - repeat constructor.
Defined.

(** C3.  On a platform whose name is not "windows", when no entry of the
    listing of [<base_path>/lib] matches the pattern, [init_framework]
    raises the [RuntimeError] whose message gives the interpreter's major
    version and the list of the entries examined. *)
Theorem lib_folder_not_found w p pname entries :
  qt_importable w = false →
  platform_name w p = Returned pname p →
  pname ≠ "windows" →
  dir_entries w (path_join w (base_path w pname) ["lib"]) = Some entries →
  Forall (λ e, python_pattern_match (version_major w) e = false) entries →
  init_framework w p
  = Raised (RuntimeError
              ("Couldn't find python libraries for Python "
               +:+ str_of_int (version_major w) +:+ " from "
               +:+ str_of_list entries))
      (log_listdir (path_join w (base_path w pname) ["lib"]) p).
Proof.
  intros Hqt Hname Hp Hdir Hnone.
  rewrite init_framework_run, Hname by done.
  rewrite resolve_site_path_listing by done. cbn zeta.
  rewrite Hdir. by rewrite find_lib_folder_none.
Qed.

Lemma lib_folder_not_found_witness :
  init_framework (linux_world ["python2.7"; "Python3.9"]) fresh_process
  = Raised (RuntimeError
              "Couldn't find python libraries for Python 3 from ['python2.7', 'Python3.9']")
      fresh_process_listed.
Proof.
  apply (lib_folder_not_found (linux_world ["python2.7"; "Python3.9"])
           fresh_process "linux" ["python2.7"; "Python3.9"]).
  - reflexivity.
  - vm_compute; reflexivity.
  - discriminate.
  - vm_compute; reflexivity.
  - repeat constructor.
Defined.

(** C4.  [platform_name] maps "Darwin" to "osx", "Linux" to "linux" and
    "Windows" to "windows"; for every other system name it raises the
    [ValueError] whose message carries that name. *)
Theorem platform_name_mapping w p :
  (platform_system w = "Darwin" → platform_name w p = Returned "osx" p) ∧
  (platform_system w = "Linux" → platform_name w p = Returned "linux" p) ∧
  (platform_system w = "Windows" → platform_name w p = Returned "windows" p) ∧
  (platform_system w ≠ "Darwin" → platform_system w ≠ "Linux" →
   platform_system w ≠ "Windows" →
   platform_name w p
   = Raised (ValueError ("Platform " +:+ platform_system w +:+ " is not supported")) p).
Proof.
  unfold platform_name.
  split_and!; try (by intros ->).
  intros Hd Hl Hw. unfold platform_names.
  by rewrite !lookup_insert_ne, lookup_empty by done.
Qed.

Lemma platform_name_mapping_witness :
  platform_name (linux_world []) fresh_process = Returned "linux" fresh_process ∧
  platform_name windows_world fresh_process = Returned "windows" fresh_process ∧
  platform_name beos_world fresh_process
  = Raised (ValueError "Platform BeOS is not supported") fresh_process.
Proof.
  split_and!.
  - apply (platform_name_mapping (linux_world []) fresh_process). reflexivity.
  - apply (platform_name_mapping windows_world fresh_process). reflexivity.
  - apply (platform_name_mapping beos_world fresh_process); discriminate.
Defined.



(** C6.  When the probe succeeds (Qt is importable already),
    [init_framework] returns at once and the process is left exactly as it
    was: environment, [sys.path], [sys.prefix] and [sys.real_prefix]. *)
Theorem probe_success_no_mutation w p :
  qt_importable w = true →
  init_framework w p = Returned tt p.
Proof. intros Hqt. unfold init_framework. by rewrite Hqt. Qed.

Lemma probe_success_no_mutation_witness :
  init_framework qt_world fresh_process = Returned tt fresh_process.
Proof. apply (probe_success_no_mutation qt_world fresh_process). reflexivity. Defined.

(** C7.  When the platform name is "windows", the binary folder is
    "Scripts", the library path is [<base_path>/Lib/site-packages], and the
    framework lists no directory: neither to compute the library path nor
    anywhere else in [init_framework], however it ends; by then [PATH]
    starts with [<base_path>/Scripts]. *)
Theorem windows_layout w p :
  qt_importable w = false →
  platform_system w = "Windows" →
  platform_name w p = Returned "windows" p ∧
  bin_folder_name "windows" = "Scripts" ∧
  resolve_site_path w "windows" (base_path w "windows") p
  = Returned (path_join w (base_path w "windows") ["Lib"; "site-packages"]) p ∧
  match init_framework w p with
  | Returned _ p' | Raised _ p' =>
      listdir_calls p' = listdir_calls p ∧
      environ p' !! "PATH"
      = Some (path_join w (base_path w "windows") ["Scripts"]
              +:+ pathsep (os_name w) +:+ default "" (environ p !! "PATH"))
  end.
Proof.
  intros Hqt Hsys.
  assert (platform_name w p = Returned "windows" p) as Hname.
  { unfold platform_name. by rewrite Hsys. }
  split_and!; [done|done|done|].
  rewrite init_framework_run, Hname, resolve_site_path_windows by done.
  rewrite mutate_process_run.
  destruct (addsitedir_path w _ (sys_path p));
    cbn [environ listdir_calls]; by rewrite lookup_insert_eq.
Qed.

Lemma windows_layout_witness :
  init_framework windows_world windows_process
  = Returned tt windows_process_activated ∧
  listdir_calls windows_process_activated = listdir_calls windows_process.
Proof.
  destruct (windows_layout windows_world windows_process) as (_ & _ & _ & Hrun).
  - reflexivity.
  - reflexivity.
  - assert (init_framework windows_world windows_process
            = Returned tt windows_process_activated) as Heq.
    { vm_compute; reflexivity. }
    rewrite Heq in Hrun. destruct Hrun as [Hlist _].
    split; [exact Heq | exact Hlist].
Defined.



(** C9.  Whenever [init_framework] raises the [ValueError] of an
    unsupported platform or the [RuntimeError] of a missing library folder,
    nothing has been mutated: [os.environ] (so [VIRTUAL_ENV] and [PATH]),
    [sys.path], [sys.prefix] and [sys.real_prefix] are as before the
    call. *)
Theorem errors_leave_process_untouched w p e p' :
  init_framework w p = Raised e p' →
  (∃ msg, e = ValueError msg) ∨ (∃ msg, e = RuntimeError msg) →
  environ p' = environ p ∧
  sys_path p' = sys_path p ∧
  sys_prefix p' = sys_prefix p ∧
  sys_real_prefix p' = sys_real_prefix p.
Proof.
  intros Hrun He. unfold init_framework in Hrun.
  destruct (qt_importable w); [done|].
  unfold mbind, M_bind, bind in Hrun.
  pose proof (platform_name_state w p) as Hstate.
  destruct (platform_name w p) as [pname q|e' q]; subst q.
  - pose proof (resolve_site_path_frame w pname (base_path w pname) p) as Hframe.
    destruct (resolve_site_path w pname (base_path w pname) p) as [site_path r|e' r].
    + apply mutate_process_raised in Hrun as [-> _].
      by destruct He as [[msg ?]|[msg ?]].
    + by injection Hrun as -> ->.
  - by injection Hrun as -> ->.
Qed.

Lemma errors_leave_process_untouched_witness :
  init_framework beos_world fresh_process
  = Raised (ValueError "Platform BeOS is not supported") fresh_process ∧
  init_framework (linux_world ["python2.7"; "Python3.9"]) fresh_process
  = Raised (RuntimeError
              "Couldn't find python libraries for Python 3 from ['python2.7', 'Python3.9']")
      fresh_process_listed ∧
  environ fresh_process_listed = environ fresh_process ∧
  sys_path fresh_process_listed = sys_path fresh_process ∧
  sys_prefix fresh_process_listed = sys_prefix fresh_process ∧
  sys_real_prefix fresh_process_listed = sys_real_prefix fresh_process.
Proof.
  split; [vm_compute; reflexivity|].
  assert (init_framework (linux_world ["python2.7"; "Python3.9"]) fresh_process
          = Raised (RuntimeError
                      "Couldn't find python libraries for Python 3 from ['python2.7', 'Python3.9']")
              fresh_process_listed) as Hrun.
  { vm_compute; reflexivity. }
  split; [exact Hrun|].
  apply (errors_leave_process_untouched _ _ _ _ Hrun).
  right. eexists. reflexivity.
Defined.

(** C10.  On a platform whose name is not "windows", when several entries
    of the listing of [<base_path>/lib] match the pattern, the first of
    them in listing order gives the library path, and [init_framework] goes
    on to the mutations of lines 96-109 with that path: uniqueness is not
    checked. *)
Theorem first_matching_folder_wins w p pname before folder after :
  qt_importable w = false →
  platform_name w p = Returned pname p →
  pname ≠ "windows" →
  dir_entries w (path_join w (base_path w pname) ["lib"])
  = Some (before ++ folder :: after) →
  Forall (λ e, python_pattern_match (version_major w) e = false) before →
  python_pattern_match (version_major w) folder = true →
  Exists (λ e, python_pattern_match (version_major w) e = true) after →
  resolve_site_path w pname (base_path w pname) p
  = Returned (path_join w (base_path w pname) ["lib"; folder; "site-packages"])
      (log_listdir (path_join w (base_path w pname) ["lib"]) p) ∧
  init_framework w p
  = mutate_process w pname (base_path w pname)
      (path_join w (base_path w pname) ["lib"; folder; "site-packages"])
      (log_listdir (path_join w (base_path w pname) ["lib"]) p).
Proof.
  intros Hqt Hname Hp Hdir Hbefore Hfolder _.
  assert (resolve_site_path w pname (base_path w pname) p
          = Returned (path_join w (base_path w pname) ["lib"; folder; "site-packages"])
              (log_listdir (path_join w (base_path w pname) ["lib"]) p)) as Hsite.
  { by apply (resolve_site_path_first_match w pname _ p before folder after). }
  split; [done|].
  by rewrite init_framework_run, Hname, Hsite.
Qed.

Lemma first_matching_folder_wins_witness :
  resolve_site_path (linux_world ["include"; "python3.9"; "python3.10"]) "linux"
    "/opt/app/python/vendors/py3.9/linux" fresh_process
  = Returned linux_site_packages fresh_process_listed ∧
  init_framework (linux_world ["include"; "python3.9"; "python3.10"]) fresh_process
  = Returned tt fresh_process_activated.
Proof.
  destruct (first_matching_folder_wins
              (linux_world ["include"; "python3.9"; "python3.10"])
              fresh_process "linux" ["include"] "python3.9" ["python3.10"])
    as [Hsite Hrun].
  - reflexivity.
  - vm_compute; reflexivity.
  - discriminate.
  - vm_compute; reflexivity.
  - repeat constructor.
  - vm_compute; reflexivity.
  - constructor. vm_compute; reflexivity.
  - split; [exact Hsite|]. rewrite Hrun. vm_compute; reflexivity.
Defined.

(** * Further properties of the framework *)

Lemma find_lib_folder_none_inv major entries :
  find_lib_folder major entries = None →
  Forall (λ e, python_pattern_match major e = false) entries.
Proof.
  induction entries as [|e entries IH]; simpl; [by constructor|].
  destruct (python_pattern_match major e) eqn:He; [done|].
  intros Hnone. constructor; auto.
Qed.

Lemma platform_names_lookup system pname :
  platform_names !! system = Some pname →
  (system = "Darwin" ∧ pname = "osx") ∨
  (system = "Linux" ∧ pname = "linux") ∨
  (system = "Windows" ∧ pname = "windows").
Proof.
  unfold platform_names.
  rewrite !lookup_insert_Some, lookup_empty.
  intros [[<- <-]|[_ [[<- <-]|[_ [[<- <-]|[_ ?]]]]]];
    [by left | by right; left | by right; right | done].
Qed.

Lemma platform_name_inv w p pname q :
  platform_name w p = Returned pname q →
  q = p ∧ platform_names !! platform_system w = Some pname.
Proof.
  unfold platform_name.
  destruct (platform_names !! platform_system w) as [s|]; simpl; [|done].
  case_bool_decide; [done|]. by intros [= -> ->].
Qed.

Lemma platform_name_raised w p e q :
  platform_name w p = Raised e q →
  q = p ∧
  e = ValueError ("Platform " +:+ platform_system w +:+ " is not supported") ∧
  platform_names !! platform_system w = None.
Proof.
  unfold platform_name.
  destruct (platform_names !! platform_system w) as [s|] eqn:Hs; simpl.
  - case_bool_decide as Hempty; [|done].
    apply platform_names_lookup in Hs.
    by destruct Hs as [[_ ->]|[[_ ->]|[_ ->]]].
  - by intros [= <- <-].
Qed.

Lemma platform_name_any_process w p p2 pname :
  platform_name w p = Returned pname p →
  platform_name w p2 = Returned pname p2.
Proof.
  intros [_ Hs]%platform_name_inv. unfold platform_name. rewrite Hs. simpl.
  apply platform_names_lookup in Hs.
  by destruct Hs as [[_ ->]|[[_ ->]|[_ ->]]].
Qed.

Lemma probe_success_no_mutation_aux w p :
  qt_importable w = true → init_framework w p = Returned tt p.
Proof. intros Hqt. unfold init_framework. by rewrite Hqt. Qed.

Lemma activates_environ w p p' pname :
  activates w p p' →
  platform_name w p = Returned pname p →
  environ p'
  = <["PATH" := path_join w (base_path w pname) [bin_folder_name pname]
                +:+ pathsep (os_name w)
                +:+ default "" (environ p !! "PATH")]>
      (<["VIRTUAL_ENV" := base_path w pname]> (environ p)).
Proof.
  intros (pname' & site_path & q & Hname & Hsite & Hmut)%activates_inv Hn.
  rewrite Hn in Hname. injection Hname as <-.
  apply mutate_process_returned in Hmut as (-> & _).
  pose proof (resolve_site_path_frame w pname (base_path w pname) p) as Hframe.
  rewrite Hsite in Hframe. destruct Hframe as (-> & _). done.
Qed.



(** X2.  On a platform whose name is not "windows", when [os.listdir]
    raises on [<base_path>/lib] the [OSError] leaves [init_framework] as it
    is, before anything was mutated: only the listing was attempted. *)
Theorem listdir_failure_propagates w p pname :
  qt_importable w = false →
  platform_name w p = Returned pname p →
  pname ≠ "windows" →
  dir_entries w (path_join w (base_path w pname) ["lib"]) = None →
  init_framework w p
  = Raised (OSError (path_join w (base_path w pname) ["lib"]))
      (log_listdir (path_join w (base_path w pname) ["lib"]) p).
Proof.
  intros Hqt Hname Hp Hdir.
  rewrite init_framework_run, Hname by done.
  rewrite resolve_site_path_listing by done. cbn zeta. by rewrite Hdir.
Qed.

Lemma listdir_failure_propagates_witness :
  init_framework bare_linux_world fresh_process
  = Raised (OSError "/opt/app/python/vendors/py3.9/linux/lib") fresh_process_listed.
Proof.
  apply (listdir_failure_propagates bare_linux_world fresh_process "linux").
  - reflexivity.
  - vm_compute; reflexivity.
  - discriminate.
  - reflexivity.
Defined.

(** X3.  Whatever [platform_name] returns is one of "osx", "linux" and
    "windows", for the system "Darwin", "Linux" and "Windows" in turn, and
    the call leaves the process as it was. *)
Theorem platform_name_range w p pname q :
  platform_name w p = Returned pname q →
  q = p ∧
  ((platform_system w = "Darwin" ∧ pname = "osx") ∨
   (platform_system w = "Linux" ∧ pname = "linux") ∨
   (platform_system w = "Windows" ∧ pname = "windows")).
Proof.
  intros [-> Hs]%platform_name_inv. split; [done|].
  by apply platform_names_lookup.
Qed.

Lemma platform_name_range_witness :
  fresh_process = fresh_process ∧
  (("Windows" = "Darwin" ∧ "windows" = "osx") ∨
   ("Windows" = "Linux" ∧ "windows" = "linux") ∨
   ("Windows" = "Windows" ∧ "windows" = "windows")).
Proof.
  apply (platform_name_range windows_world fresh_process "windows" fresh_process).
  reflexivity.
Defined.



Lemma resolve_site_path_returned_inv w pname base p site_path q :
  pname ≠ "windows" →
  resolve_site_path w pname base p = Returned site_path q →
  ∃ before folder after,
    dir_entries w (path_join w base ["lib"]) = Some (before ++ folder :: after) ∧
    Forall (λ e, python_pattern_match (version_major w) e = false) before ∧
    python_pattern_match (version_major w) folder = true ∧
    site_path = path_join w base ["lib"; folder; "site-packages"] ∧
    q = log_listdir (path_join w base ["lib"]) p.
Proof.
  intros Hp Hrun. rewrite resolve_site_path_listing in Hrun by done.
  cbn zeta in Hrun.
  destruct (dir_entries w _) as [entries|]; [|done].
  destruct (find_lib_folder _ entries) as [folder|] eqn:Hfind; [|done].
  injection Hrun as <- <-.
  apply find_lib_folder_some in Hfind as (before & after & -> & Hbefore & Hfolder).
  by exists before, folder, after.
Qed.

(** X5.  When the library path comes from a listing, the folder in it is
    an entry of that listing which matches the pattern, no earlier entry
    matches, and [<base_path>/lib] is the one directory that was listed. *)
Theorem discovered_folder_is_listed w pname base p site_path q :
  pname ≠ "windows" →
  resolve_site_path w pname base p = Returned site_path q →
  ∃ before folder after,
    dir_entries w (path_join w base ["lib"]) = Some (before ++ folder :: after) ∧
    Forall (λ e, python_pattern_match (version_major w) e = false) before ∧
    python_pattern_match (version_major w) folder = true ∧
    site_path = path_join w base ["lib"; folder; "site-packages"] ∧
    q = log_listdir (path_join w base ["lib"]) p.
Proof. apply resolve_site_path_returned_inv. Qed.

Lemma discovered_folder_is_listed_witness :
  ∃ before folder after,
    dir_entries (linux_world ["include"; "python3.9"; "python3.10"])
      (path_join (linux_world ["include"; "python3.9"; "python3.10"])
         "/opt/app/python/vendors/py3.9/linux" ["lib"])
    = Some (before ++ folder :: after) ∧
    Forall (λ e, python_pattern_match 3 e = false) before ∧
    python_pattern_match 3 folder = true ∧
    linux_site_packages
    = path_join (linux_world ["include"; "python3.9"; "python3.10"])
        "/opt/app/python/vendors/py3.9/linux" ["lib"; folder; "site-packages"] ∧
    fresh_process_listed
    = log_listdir
        (path_join (linux_world ["include"; "python3.9"; "python3.10"])
           "/opt/app/python/vendors/py3.9/linux" ["lib"])
        fresh_process.
Proof.
  apply (discovered_folder_is_listed
           (linux_world ["include"; "python3.9"; "python3.10"]) "linux"
           "/opt/app/python/vendors/py3.9/linux" fresh_process
           linux_site_packages fresh_process_listed).
  - discriminate.
  - vm_compute; reflexivity.
Defined.

(** X6.  The pattern of line 78 accepts every name
    [python<major>.<digits>] with at least one digit from 0 to 9, and it
    also accepts such a name followed by one newline, since [$] holds just
    before a newline that ends the string. *)
Theorem pattern_accepts_version_folders major digits :
  digits ≠ "" →
  all_digits digits = true →
  python_pattern_match major
    (("python" +:+ str_of_int major +:+ ".") +:+ digits) = true ∧
  python_pattern_match major
    (("python" +:+ str_of_int major +:+ ".") +:+ digits +:+ str1 ch_newline) = true.
Proof.
  intros Hne Hdigits.
  split; apply python_pattern_match_spec; exists digits;
    (split_and!; [done|done|]); [by left | by right].
Qed.

Lemma pattern_accepts_version_folders_witness :
  python_pattern_match 3 "python3.11" = true ∧
  python_pattern_match 3 ("python3.11" +:+ str1 ch_newline) = true.
Proof.
  apply (pattern_accepts_version_folders 3 "11"); [discriminate | reflexivity].
Defined.

(** ** The entries of [PATH] *)

Lemma str_app_nil_l (s : string) : "" +:+ s = s.
Proof. reflexivity. Qed.

Lemma str_split_app_sep sep a b :
  str_split sep (a +:+ String sep b) = str_split sep a ++ str_split sep b.
Proof.
  induction a as [|c a IH].
  - simpl. change ("" +:+ String sep b) with (String sep b). simpl.
    by rewrite bool_decide_eq_true_2.
  - rewrite str_app_cons. simpl. case_bool_decide.
    + by rewrite IH.
    + rewrite IH.
      destruct (str_split sep a) as [|piece pieces] eqn:Hsplit; [|done].
      by destruct (str_split_nonempty sep a).
Qed.

Lemma str_split_no_sep sep s :
  str_contains sep s = false → str_split sep s = [s].
Proof.
  induction s as [|c s IH]; simpl; [done|].
  intros [Hc Hs]%orb_false_elim. rewrite Hc, IH by done. done.
Qed.



(** ** Paths under [posixpath] *)

Lemma str_app_assoc (a b c : string) : (a +:+ b) +:+ c = a +:+ b +:+ c.
Proof. induction a as [|x a IH]; [done|]. by rewrite !str_app_cons, IH. Qed.

Lemma str_app_nonempty_r (a b : string) : b ≠ "" → a +:+ b ≠ "".
Proof. destruct a; [done|]. by rewrite str_app_cons. Qed.

Lemma last_char_app (a b : string) :
  b ≠ "" → last_char (a +:+ b) = last_char b.
Proof.
  intros Hb. induction a as [|c a IH]; [done|].
  rewrite str_app_cons. simpl.
  destruct (a +:+ b) eqn:Hab; [|done].
  by destruct (str_app_nonempty_r a b Hb).
Qed.

Lemma endswith_char_app c (a b : string) :
  b ≠ "" → endswith_char c (a +:+ b) = endswith_char c b.
Proof. intros Hb. unfold endswith_char. by rewrite last_char_app. Qed.

Lemma posix_sep_after_app (a b : string) :
  b ≠ "" → posix_sep_after (a +:+ b) = posix_sep_after b.
Proof.
  intros Hb. unfold posix_sep_after.
  rewrite endswith_char_app by done.
  rewrite (bool_decide_eq_false_2 (a +:+ b = "")) by by apply str_app_nonempty_r.
  by rewrite (bool_decide_eq_false_2 (b = "")).
Qed.

Lemma posix_join_step_relative path b :
  startswith "/" b = false →
  posix_join_step path b = path +:+ posix_sep_after path +:+ b.
Proof.
  intros Hb. unfold posix_join_step, posix_sep_after. rewrite Hb.
  by destruct (bool_decide (path = "") || endswith_char "/" path).
Qed.

Lemma posix_join_step_absolute path b :
  startswith "/" b = true → posix_join_step path b = b.
Proof. intros Hb. unfold posix_join_step. by rewrite Hb. Qed.

Lemma all_digits_last_char digits :
  digits ≠ "" → all_digits digits = true →
  ∃ c, last_char digits = Some c ∧ is_digit c = true.
Proof.
  induction digits as [|c digits IH]; [done|].
  intros _ [Hc Hdigits]%andb_prop. simpl.
  destruct digits as [|c' digits]; [by exists c|].
  apply IH; done.
Qed.

Lemma is_digit_not_slash c : is_digit c = true → c ≠ "/"%char.
Proof. by intros Hc ->. Qed.

Lemma matching_folder_shape major folder :
  python_pattern_match major folder = true →
  folder ≠ "" ∧ startswith "/" folder = false ∧ endswith_char "/" folder = false.
Proof.
  intros (digits & Hne & Hdigits & Hfolder)%python_pattern_match_spec.
  destruct (all_digits_last_char digits Hne Hdigits) as (c & Hlast & Hc).
  assert (endswith_char "/" digits = false) as Hend.
  { unfold endswith_char. rewrite Hlast. apply bool_decide_eq_false_2.
    intros [= ->]. done. }
  destruct Hfolder as [-> | ->]; rewrite !str_app_cons; (split_and!; [done|done|]).
  - rewrite <- !str_app_cons. by rewrite endswith_char_app.
  - rewrite <- !str_app_cons. rewrite endswith_char_app.
    + by rewrite endswith_char_app.
    + by apply str_app_nonempty_r.
Qed.

Lemma posix_sep_after_plain (s : string) :
  s ≠ "" → endswith_char "/" s = false → posix_sep_after s = "/".
Proof.
  intros Hne Hend. unfold posix_sep_after.
  by rewrite Hend, (bool_decide_eq_false_2 (s = "")).
Qed.

Lemma posix_join_lib_folder base folder :
  folder ≠ "" → startswith "/" folder = false → endswith_char "/" folder = false →
  posix_join base ["lib"; folder; "site-packages"]
  = base +:+ posix_sep_after base +:+ "lib/" +:+ folder +:+ "/site-packages".
Proof.
  intros Hne Hstart Hend. unfold posix_join. simpl.
  rewrite (posix_join_step_relative base "lib") by done.
  rewrite (posix_join_step_relative _ folder) by done.
  rewrite (posix_join_step_relative _ "site-packages") by done.
  assert (posix_sep_after (base +:+ posix_sep_after base +:+ "lib") = "/") as ->.
  { rewrite posix_sep_after_app by by apply str_app_nonempty_r.
    by rewrite posix_sep_after_app. }
  assert (posix_sep_after
            ((base +:+ posix_sep_after base +:+ "lib") +:+ "/" +:+ folder) = "/")
    as ->.
  { rewrite posix_sep_after_app by by apply str_app_nonempty_r.
    rewrite posix_sep_after_app by done. by apply posix_sep_after_plain. }
  rewrite !str_app_assoc. reflexivity.
Qed.

Lemma pretty_N_char_digit n : is_digit (pretty_N_char n) = true.
Proof. unfold pretty_N_char. by repeat case_match. Qed.

Lemma pretty_N_go_suffix x s : ∃ pre, pretty_N_go x s = pre +:+ s.
Proof.
  revert s. induction (N.lt_wf_0 x) as [x _ IH]. intros s.
  destruct (decide (0 < x)%N) as [Hx|Hx].
  - rewrite pretty_N_go_step by done.
    destruct (IH (x `div` 10)%N (N.div_lt x 10 Hx eq_refl)
                (String (pretty_N_char (x `mod` 10)) s)) as [pre ->].
    exists (pre +:+ str1 (pretty_N_char (x `mod` 10))).
    by rewrite str_app_assoc.
  - assert (x = 0%N) as -> by lia. by exists "".
Qed.

Lemma str_of_int_shape n :
  str_of_int n ≠ "" ∧ endswith_char "/" (str_of_int n) = false.
Proof.
  unfold str_of_int, pretty, pretty_N.
  destruct (decide (n = 0%N)) as [->|Hn]; [done|].
  rewrite pretty_N_go_step by lia.
  destruct (pretty_N_go_suffix (n `div` 10)
              (str1 (pretty_N_char (n `mod` 10)))) as [pre Hpre].
  unfold str1 in Hpre. rewrite Hpre.
  pose proof (pretty_N_char_digit (n `mod` 10)) as Hdigit.
  split.
  - by apply str_app_nonempty_r.
  - rewrite endswith_char_app by done. unfold endswith_char. simpl.
    apply bool_decide_eq_false_2. intros [= Heq]. by rewrite Heq in Hdigit.
Qed.

Lemma platform_name_relative w p pname :
  platform_name w p = Returned pname p →
  pname ≠ "" ∧ startswith "/" pname = false ∧ endswith_char "/" pname = false.
Proof.
  intros [_ Hs]%platform_name_inv. apply platform_names_lookup in Hs.
  by destruct Hs as [[_ ->]|[[_ ->]|[_ ->]]].
Qed.

Lemma posix_join_one base name :
  startswith "/" name = false →
  posix_join base [name] = base +:+ posix_sep_after base +:+ name.
Proof. intros Hname. unfold posix_join. simpl. by apply posix_join_step_relative. Qed.

(** X8.  Under [posixpath], the library path found by the listing is the
    text [<base>/lib/<folder>/site-packages], where the first separator is
    left out when [base] is empty or ends with one; the directory listed
    is [<base>/lib].  A matching folder name never starts or ends with a
    separator, so it cannot redirect the path. *)
Theorem posix_site_path_layout w pname base p site_path q :
  os_name w = Posix →
  pname ≠ "windows" →
  resolve_site_path w pname base p = Returned site_path q →
  ∃ folder,
    python_pattern_match (version_major w) folder = true ∧
    site_path
    = base +:+ posix_sep_after base +:+ "lib/" +:+ folder +:+ "/site-packages" ∧
    listdir_calls q
    = listdir_calls p ++ [base +:+ posix_sep_after base +:+ "lib"].
Proof.
  intros Hos Hp Hrun.
  apply resolve_site_path_returned_inv in Hrun
    as (before & folder & after & _ & _ & Hfolder & -> & ->); [|done].
  exists folder. split; [done|].
  unfold path_join. rewrite Hos.
  apply matching_folder_shape in Hfolder as (Hne & Hstart & Hend).
  split.
  - by apply posix_join_lib_folder.
  - unfold log_listdir. cbn [listdir_calls]. by rewrite posix_join_one.
Qed.

Lemma posix_site_path_layout_witness :
  ∃ folder,
    python_pattern_match 3 folder = true ∧
    linux_site_packages
    = "/opt/app/python/vendors/py3.9/linux"
      +:+ posix_sep_after "/opt/app/python/vendors/py3.9/linux"
      +:+ "lib/" +:+ folder +:+ "/site-packages" ∧
    listdir_calls fresh_process_listed
    = listdir_calls fresh_process
      ++ ["/opt/app/python/vendors/py3.9/linux"
          +:+ posix_sep_after "/opt/app/python/vendors/py3.9/linux" +:+ "lib"].
Proof.
  apply (posix_site_path_layout (linux_world ["include"; "python3.9"]) "linux"
           "/opt/app/python/vendors/py3.9/linux" fresh_process
           linux_site_packages fresh_process_listed).
  - reflexivity.
  - discriminate.
  - vm_compute; reflexivity.
Defined.

(** X9.  Under [posixpath], for a supported platform the base path is the
    [realpath] of [<framework_dir>/python/vendors/py<major>.<minor>/<pname>]
    as a text, and the folder prepended to [PATH] is [<base_path>/bin] or
    [<base_path>/Scripts]. *)
Theorem posix_base_path_layout w p pname :
  os_name w = Posix →
  platform_name w p = Returned pname p →
  base_path w pname
  = realpath w
      (framework_dir w +:+ posix_sep_after (framework_dir w)
       +:+ "python/vendors/py" +:+ str_of_int (version_major w) +:+ "."
       +:+ str_of_int (version_minor w) +:+ "/" +:+ pname) ∧
  path_join w (base_path w pname) [bin_folder_name pname]
  = base_path w pname +:+ posix_sep_after (base_path w pname)
    +:+ bin_folder_name pname.
Proof.
  intros Hos Hname.
  destruct (platform_name_relative _ _ _ Hname) as (Hne & Hstart & Hend).
  destruct (str_of_int_shape (version_minor w)) as [Hminor_ne Hminor_end].
  split.
  - unfold base_path, path_join. rewrite Hos. f_equal.
    unfold posix_join. simpl.
    rewrite (posix_join_step_relative _ "python") by done.
    rewrite (posix_join_step_relative _ "vendors") by done.
    rewrite (posix_join_step_relative _ ("py" +:+ _)) by done.
    rewrite (posix_join_step_relative _ pname) by done.
    assert (posix_sep_after
              (framework_dir w +:+ posix_sep_after (framework_dir w) +:+ "python")
            = "/") as ->.
    { rewrite posix_sep_after_app by by apply str_app_nonempty_r.
      by rewrite posix_sep_after_app. }
    assert (∀ a : string, posix_sep_after (a +:+ "/" +:+ "vendors") = "/") as ->.
    { intros a. rewrite posix_sep_after_app by done.
      by rewrite posix_sep_after_app. }
    assert (∀ a : string,
              posix_sep_after
                (a +:+ "/" +:+ "py" +:+ str_of_int (version_major w) +:+ "."
                 +:+ str_of_int (version_minor w)) = "/") as ->.
    { intros a.
      rewrite !posix_sep_after_app by (repeat apply str_app_nonempty_r; done).
      by apply posix_sep_after_plain. }
    rewrite !str_app_assoc. reflexivity.
  - unfold path_join. rewrite Hos. apply posix_join_one.
    unfold bin_folder_name. by case_bool_decide.
Qed.

Lemma posix_base_path_layout_witness :
  base_path (linux_world []) "linux" = "/opt/app/python/vendors/py3.9/linux" ∧
  path_join (linux_world []) (base_path (linux_world []) "linux") ["bin"]
  = "/opt/app/python/vendors/py3.9/linux/bin".
Proof.
  destruct (posix_base_path_layout (linux_world []) fresh_process "linux")
    as [Hbase Hbin].
  - reflexivity.
  - vm_compute; reflexivity.
  - split; [etrans; [exact Hbase|] | etrans; [exact Hbin|]];
      vm_compute; reflexivity.
Defined.

(** ** [bin_folder] *)

Lemma platform_name_unsupported w p :
  platform_system w ≠ "Darwin" → platform_system w ≠ "Linux" →
  platform_system w ≠ "Windows" →
  platform_name w p
  = Raised (ValueError ("Platform " +:+ platform_system w +:+ " is not supported")) p.
Proof.
  intros Hd Hl Hw. unfold platform_name, platform_names.
  by rewrite !lookup_insert_ne, lookup_empty by done.
Qed.

Lemma bin_folder_run w vendor p :
  bin_folder w vendor p =
  match platform_name w p with
  | Raised e q => Raised e q
  | Returned pname q =>
      Returned
        (path_join w (framework_dir w)
           (match vendor with
            | Some v => if bool_decide (v = "") then ["vendors"; "bin"; pname]
                        else ["vendors"; v; "bin"; pname]
            | None => ["vendors"; "bin"; pname]
            end)) q
  end.
Proof.
  unfold bin_folder, mbind, M_bind, bind.
  destruct (platform_name w p) as [pname q|e q]; [|done].
  destruct vendor as [v|]; [|done]. by case_bool_decide.
Qed.

(** X10.  On a system that is not in the table, [bin_folder] raises the
    [ValueError] of [platform_name] whatever the vendor, and the process is
    left as it was. *)
Theorem bin_folder_unsupported w vendor p :
  platform_system w ≠ "Darwin" → platform_system w ≠ "Linux" →
  platform_system w ≠ "Windows" →
  bin_folder w vendor p
  = Raised (ValueError ("Platform " +:+ platform_system w +:+ " is not supported")) p.
Proof.
  intros Hd Hl Hw. rewrite bin_folder_run.
  by rewrite platform_name_unsupported.
Qed.

Lemma bin_folder_unsupported_witness :
  bin_folder beos_world (Some "ffmpeg") fresh_process
  = Raised (ValueError "Platform BeOS is not supported") fresh_process.
Proof.
  apply (bin_folder_unsupported beos_world (Some "ffmpeg") fresh_process);
    discriminate.
Defined.

Lemma posix_join_vendors_bin dir pname :
  pname ≠ "" → startswith "/" pname = false →
  posix_join dir ["vendors"; "bin"; pname]
  = dir +:+ posix_sep_after dir +:+ "vendors/bin/" +:+ pname.
Proof.
  intros Hne Hstart. unfold posix_join. simpl.
  rewrite (posix_join_step_relative dir "vendors") by done.
  rewrite (posix_join_step_relative _ "bin") by done.
  rewrite (posix_join_step_relative _ pname) by done.
  assert (posix_sep_after (dir +:+ posix_sep_after dir +:+ "vendors") = "/") as ->.
  { rewrite posix_sep_after_app by by apply str_app_nonempty_r.
    by rewrite posix_sep_after_app. }
  assert (∀ a : string, posix_sep_after (a +:+ "/" +:+ "bin") = "/") as ->.
  { intros a. rewrite posix_sep_after_app by done. by rewrite posix_sep_after_app. }
  rewrite !str_app_assoc. reflexivity.
Qed.

Lemma posix_join_bin_pname dir pname :
  dir ≠ "" → pname ≠ "" → startswith "/" pname = false →
  posix_join dir ["bin"; pname]
  = dir +:+ posix_sep_after dir +:+ "bin/" +:+ pname.
Proof.
  intros Hdir Hne Hstart. unfold posix_join. simpl.
  rewrite (posix_join_step_relative dir "bin") by done.
  rewrite (posix_join_step_relative _ pname) by done.
  assert (posix_sep_after (dir +:+ posix_sep_after dir +:+ "bin") = "/") as ->.
  { rewrite posix_sep_after_app by by apply str_app_nonempty_r.
    by rewrite posix_sep_after_app. }
  rewrite !str_app_assoc. reflexivity.
Qed.

(** X11.  Under [posixpath], for a supported platform, [bin_folder]
    without a vendor, or with the empty string as vendor, returns
    [<framework_dir>/vendors/bin/<pname>]; with a relative vendor name it
    returns [<framework_dir>/vendors/<vendor>/bin/<pname>].  The process is
    left as it was. *)
Theorem bin_folder_posix_layout w p pname v :
  os_name w = Posix →
  platform_name w p = Returned pname p →
  v ≠ "" →
  startswith "/" v = false →
  bin_folder w None p
  = Returned (framework_dir w +:+ posix_sep_after (framework_dir w)
              +:+ "vendors/bin/" +:+ pname) p ∧
  bin_folder w (Some "") p = bin_folder w None p ∧
  bin_folder w (Some v) p
  = Returned (framework_dir w +:+ posix_sep_after (framework_dir w)
              +:+ "vendors/" +:+ v +:+ posix_sep_after v +:+ "bin/" +:+ pname) p.
Proof.
  intros Hos Hname Hv Hrel.
  destruct (platform_name_relative _ _ _ Hname) as (Hne & Hstart & _).
  rewrite !bin_folder_run, Hname. unfold path_join. rewrite Hos.
  rewrite (bool_decide_eq_false_2 (v = "")) by done.
  split_and!; [by rewrite posix_join_vendors_bin | done |].
  f_equal. unfold posix_join. cbn [foldl].
  rewrite (posix_join_step_relative _ "vendors") by done.
  rewrite (posix_join_step_relative _ v) by done.
  assert (posix_sep_after
            (framework_dir w +:+ posix_sep_after (framework_dir w) +:+ "vendors")
          = "/") as ->.
  { rewrite posix_sep_after_app by by apply str_app_nonempty_r.
    by rewrite posix_sep_after_app. }
  change (posix_join_step (posix_join_step ?a "bin") pname)
    with (posix_join a ["bin"; pname]).
  rewrite posix_join_bin_pname; [|by apply str_app_nonempty_r;
                                    apply str_app_nonempty_r|done|done].
  rewrite !posix_sep_after_app by (try apply str_app_nonempty_r; done).
  rewrite !str_app_assoc. reflexivity.
Qed.

Lemma bin_folder_posix_layout_witness :
  bin_folder (linux_world []) None fresh_process
  = Returned "/opt/app/vendors/bin/linux" fresh_process ∧
  bin_folder (linux_world []) (Some "") fresh_process
  = bin_folder (linux_world []) None fresh_process ∧
  bin_folder (linux_world []) (Some "ffmpeg") fresh_process
  = Returned "/opt/app/vendors/ffmpeg/bin/linux" fresh_process.
Proof.
  apply (bin_folder_posix_layout (linux_world []) fresh_process "linux" "ffmpeg").
  - reflexivity.
  - vm_compute; reflexivity.
  - discriminate.
  - reflexivity.
Defined.

(** X12.  Under [posixpath], a vendor that starts with a separator makes
    [bin_folder] drop the framework directory: the result is
    [<vendor>/bin/<pname>]. *)
Theorem bin_folder_absolute_vendor w p pname v :
  os_name w = Posix →
  platform_name w p = Returned pname p →
  startswith "/" v = true →
  bin_folder w (Some v) p
  = Returned (v +:+ posix_sep_after v +:+ "bin/" +:+ pname) p.
Proof.
  intros Hos Hname Habs.
  destruct (platform_name_relative _ _ _ Hname) as (Hne & Hstart & _).
  assert (v ≠ "") as Hv by (by intros ->).
  rewrite bin_folder_run, Hname. unfold path_join. rewrite Hos.
  rewrite (bool_decide_eq_false_2 (v = "")) by done.
  f_equal. unfold posix_join. cbn [foldl].
  rewrite (posix_join_step_absolute _ v) by done.
  change (posix_join_step (posix_join_step v "bin") pname)
    with (posix_join v ["bin"; pname]).
  by apply posix_join_bin_pname.
Qed.

Lemma bin_folder_absolute_vendor_witness :
  bin_folder (linux_world []) (Some "/mnt/tools") fresh_process
  = Returned "/mnt/tools/bin/linux" fresh_process.
Proof.
  apply (bin_folder_absolute_vendor (linux_world []) fresh_process "linux"
           "/mnt/tools").
  - reflexivity.
  - vm_compute; reflexivity.
  - reflexivity.
Defined.

(** ** [sys.path] across activations *)

Lemma elem_of_init_pathinfo w path k :
  k ∈ init_pathinfo w path ↔
  ∃ e, e ∈ path ∧ path_exists w e = true ∧ k = site_key w e.
Proof.
  unfold init_pathinfo. rewrite elem_of_list_to_set, list_elem_of_fmap.
  split.
  - intros (e & -> & [He Hex]%list_elem_of_In%filter_In).
    exists e. by rewrite list_elem_of_In.
  - intros (e & He & Hex & ->). exists e. split; [done|].
    apply list_elem_of_In, filter_In. by rewrite <- list_elem_of_In.
Qed.

Lemma pth_fold_cons w known dir dirs :
  foldl (λ st d, site_append w true d st) ([], known) (dir :: dirs)
  = if bool_decide (site_key w dir ∈ known) then
      foldl (λ st d, site_append w true d st) ([], known) dirs
    else if negb (path_exists w dir) then
      foldl (λ st d, site_append w true d st) ([], known) dirs
    else
      (dir :: pth_appended w ({[site_key w dir]} ∪ known) dirs,
       pth_known w ({[site_key w dir]} ∪ known) dirs).
Proof.
  simpl. unfold site_append at 2. simpl.
  case_bool_decide; [done|].
  destruct (path_exists w dir); simpl; [|done].
  change [dir] with ([dir] ++ []).
  by rewrite foldl_site_append_app.
Qed.

Lemma pth_appended_cons w known dir dirs :
  pth_appended w known (dir :: dirs)
  = if bool_decide (site_key w dir ∈ known) || negb (path_exists w dir)
    then pth_appended w known dirs
    else dir :: pth_appended w ({[site_key w dir]} ∪ known) dirs.
Proof.
  unfold pth_appended at 1. rewrite pth_fold_cons.
  case_bool_decide; [done|]. by destruct (path_exists w dir).
Qed.

Lemma pth_known_cons w known dir dirs :
  pth_known w known (dir :: dirs)
  = if bool_decide (site_key w dir ∈ known) || negb (path_exists w dir)
    then pth_known w known dirs
    else pth_known w ({[site_key w dir]} ∪ known) dirs.
Proof.
  unfold pth_known at 1. rewrite pth_fold_cons.
  case_bool_decide; [done|]. by destruct (path_exists w dir).
Qed.

Lemma pth_known_mono w dirs known k :
  k ∈ known → k ∈ pth_known w known dirs.
Proof.
  revert known. induction dirs as [|dir dirs IH]; intros known Hk; [done|].
  rewrite pth_known_cons.
  destruct (bool_decide _ || negb _); apply IH; set_solver.
Qed.

Lemma pth_known_covers w dirs known dir :
  dir ∈ dirs → path_exists w dir = true →
  site_key w dir ∈ pth_known w known dirs.
Proof.
  revert known. induction dirs as [|d dirs IH]; intros known Hin Hex.
  - by apply elem_of_nil in Hin.
  - rewrite pth_known_cons.
    apply elem_of_cons in Hin as [->|Hin].
    + rewrite Hex. simpl. rewrite orb_false_r.
      case_bool_decide; apply pth_known_mono; set_solver.
    + destruct (bool_decide _ || negb _); by apply IH.
Qed.

Lemma pth_known_origin w dirs known k :
  k ∈ pth_known w known dirs →
  k ∈ known ∨ ∃ e, e ∈ pth_appended w known dirs ∧ k = site_key w e.
Proof.
  revert known. induction dirs as [|dir dirs IH]; intros known Hk; [by left|].
  rewrite pth_known_cons in Hk. rewrite pth_appended_cons.
  destruct (bool_decide _ || negb _); [by apply IH|].
  apply IH in Hk as [Hk|(e & He & ->)].
  - apply elem_of_union in Hk as [->%elem_of_singleton|Hk]; [|by left].
    right. exists dir. split; [apply elem_of_cons; by left|done].
  - right. exists e. split; [apply elem_of_cons; by right|done].
Qed.

Lemma pth_appended_exist w dirs known e :
  e ∈ pth_appended w known dirs → path_exists w e = true.
Proof.
  revert known. induction dirs as [|dir dirs IH]; intros known He.
  - by apply elem_of_nil in He.
  - rewrite pth_appended_cons in He.
    destruct (bool_decide _) eqn:Hknown; simpl in He; [by eapply IH|].
    destruct (path_exists w dir) eqn:Hex; simpl in He; [|by eapply IH].
    apply elem_of_cons in He as [->|He]; [done|by eapply IH].
Qed.

Lemma pth_appended_all_known w dirs known :
  (∀ dir, dir ∈ dirs → path_exists w dir = true → site_key w dir ∈ known) →
  pth_appended w known dirs = [].
Proof.
  induction dirs as [|dir dirs IH]; intros Hall; [done|].
  rewrite pth_appended_cons.
  destruct (path_exists w dir) eqn:Hex; simpl.
  - rewrite orb_false_r, bool_decide_eq_true_2.
    + apply IH. intros d Hd. apply Hall, elem_of_cons. by right.
    + apply Hall; [apply elem_of_cons; by left|done].
  - rewrite orb_true_r. apply IH. intros d Hd. apply Hall, elem_of_cons. by right.
Qed.

Lemma addsitedir_appended_again w sitedir path :
  path_exists w sitedir = true →
  addsitedir_appended w sitedir (addsitedir_appended w sitedir path ++ path) = [].
Proof.
  intros Hex.
  set (added := addsitedir_appended w sitedir path).
  assert (∀ k, k ∈ init_pathinfo w path → k ∈ init_pathinfo w (added ++ path))
    as Hold.
  { intros k (e & He & Hexe & ->)%elem_of_init_pathinfo.
    apply elem_of_init_pathinfo. exists e. split; [|done].
    apply elem_of_app. by right. }
  assert (∀ e, e ∈ added → path_exists w e = true →
               site_key w e ∈ init_pathinfo w (added ++ path)) as Hnew.
  { intros e He Hexe. apply elem_of_init_pathinfo. exists e.
    split; [|done]. apply elem_of_app. by left. }
  assert (site_key w sitedir ∈ init_pathinfo w (added ++ path)
          ∧ ∀ dir, dir ∈ pth_dirs w sitedir → path_exists w dir = true →
                   site_key w dir ∈ init_pathinfo w (added ++ path))
    as [Hsite Hdirs].
  { subst added. unfold addsitedir_appended in *. cbn zeta in *.
    case_bool_decide as Hknown.
    - split; [by apply Hold|].
      intros dir Hdir Hexd.
      destruct (pth_known_origin w (pth_dirs w sitedir) (init_pathinfo w path)
                  (site_key w dir)) as [Hk|(e & He & ->)].
      + by apply pth_known_covers.
      + by apply Hold.
      + apply Hnew; [done|]. by eapply pth_appended_exist.
    - assert (site_key w sitedir
              ∈ init_pathinfo w
                  ((sitedir :: pth_appended w
                                 ({[site_key w sitedir]} ∪ init_pathinfo w path)
                                 (pth_dirs w sitedir)) ++ path)) as Hsite.
      { apply Hnew; [apply elem_of_cons; by left|done]. }
      split; [done|].
      intros dir Hdir Hexd.
      destruct (pth_known_origin w (pth_dirs w sitedir)
                  ({[site_key w sitedir]} ∪ init_pathinfo w path)
                  (site_key w dir)) as [Hk|(e & He & ->)].
      + by apply pth_known_covers.
      + apply elem_of_union in Hk as [->%elem_of_singleton|Hk];
          [done|by apply Hold].
      + apply Hnew; [apply elem_of_cons; by right|].
        by eapply pth_appended_exist. }
  unfold addsitedir_appended at 1. cbn zeta.
  rewrite bool_decide_eq_true_2 by done.
  by apply pth_appended_all_known.
Qed.

Lemma resolve_site_path_any_process w pname base p p2 site_path q :
  resolve_site_path w pname base p = Returned site_path q →
  ∃ q2,
    resolve_site_path w pname base p2 = Returned site_path q2 ∧
    environ q2 = environ p2 ∧ sys_path q2 = sys_path p2 ∧
    sys_prefix q2 = sys_prefix p2 ∧ sys_real_prefix q2 = sys_real_prefix p2.
Proof.
  destruct (decide (pname = "windows")) as [->|Hp].
  - rewrite !resolve_site_path_windows. intros [= <- <-]. by exists p2.
  - rewrite !resolve_site_path_listing by done. cbn zeta.
    destruct (dir_entries w _) as [entries|]; [|done].
    destruct (find_lib_folder _ entries) as [folder|]; [|done].
    intros [= <- <-]. by eexists.
Qed.

Lemma init_framework_returns w p pname site_path q :
  qt_importable w = false →
  platform_name w p = Returned pname p →
  resolve_site_path w pname (base_path w pname) p = Returned site_path q →
  plain_pth w site_path →
  init_framework w p =
  Returned tt
    {| environ :=
         <["PATH" := path_join w (base_path w pname) [bin_folder_name pname]
                     +:+ pathsep (os_name w)
                     +:+ default "" (environ q !! "PATH")]>
           (<["VIRTUAL_ENV" := base_path w pname]> (environ q));
       sys_path := addsitedir_appended w site_path (sys_path q) ++ sys_path q;
       sys_prefix := base_path w pname;
       sys_real_prefix := Some (sys_prefix q);
       listdir_calls := listdir_calls q |}.
Proof.
  intros Hqt Hname Hsite Hplain.
  rewrite init_framework_run, Hname, Hsite by done.
  by apply mutate_process_returns.
Qed.

Lemma activates_again w p p1 pname site_path q :
  activates w p p1 →
  platform_name w p = Returned pname p →
  resolve_site_path w pname (base_path w pname) p = Returned site_path q →
  ∃ q2 p2,
    resolve_site_path w pname (base_path w pname) p1 = Returned site_path q2 ∧
    environ q2 = environ p1 ∧ sys_prefix q2 = sys_prefix p1 ∧
    mutate_process w pname (base_path w pname) site_path q2 = Returned tt p2 ∧
    init_framework w p1 = Returned tt p2.
Proof.
  intros Hact Hname Hsite.
  destruct (activates_inv _ _ _ Hact)
    as (pname' & site_path' & q' & Hname' & Hsite' & Hmut).
  rewrite Hname in Hname'. injection Hname' as <-.
  rewrite Hsite in Hsite'. injection Hsite' as <- <-.
  destruct Hact as [Hqt _].
  destruct (resolve_site_path_any_process _ _ _ _ p1 _ _ Hsite)
    as (q2 & Hsite2 & Henv2 & _ & Hprefix2 & _).
  rewrite mutate_process_run in Hmut.
  destruct (addsitedir_path w site_path (sys_path q)) as [r|r] eqn:Hdone;
    [|done].
  destruct (addsitedir_path_done_any w site_path _ (sys_path q2) _ Hdone)
    as [r2 Hdone2].
  exists q2. eexists. split_and!; [done|done|done| |].
  - rewrite mutate_process_run, Hdone2. reflexivity.
  - rewrite init_framework_run by done.
    rewrite (platform_name_any_process w p p1 pname Hname), Hsite2.
    rewrite mutate_process_run, Hdone2. reflexivity.
Qed.

Lemma plain_pth_missing w sitedir :
  path_exists w sitedir = false → plain_pth w sitedir.
Proof. intros Hex. unfold plain_pth, pth_dirs, site_lines. by rewrite Hex. Qed.

(** X13.  When the library directory exists and its [.pth] files hold
    directory lines only, activating a second time leaves [sys.path] as
    the first activation made it: nothing is appended again and nothing is
    moved. *)
Theorem reactivation_keeps_sys_path w p p1 pname site_path q :
  activates w p p1 →
  platform_name w p = Returned pname p →
  resolve_site_path w pname (base_path w pname) p = Returned site_path q →
  path_exists w site_path = true →
  plain_pth w site_path →
  ∃ p2, activates w p1 p2 ∧ sys_path p2 = sys_path p1.
Proof.
  intros Hact Hname Hsite Hex Hplain.
  pose proof (activates_sys_path _ _ _ _ _ _ Hact Hname Hsite Hplain) as Hpath1.
  destruct Hact as [Hqt _].
  destruct (resolve_site_path_any_process _ _ _ _ p1 _ _ Hsite)
    as (q2 & Hsite2 & _ & Hpath2 & _).
  eexists. split.
  - split; [done|].
    apply (init_framework_returns w p1 pname site_path q2); [done| |done|done].
    by apply (platform_name_any_process w p).
  - cbn [sys_path]. rewrite Hpath2, Hpath1.
    by rewrite addsitedir_appended_again.
Qed.

Lemma reactivation_keeps_sys_path_witness :
  ∃ p2,
    activates (linux_world ["python3.9"]) fresh_process_activated p2 ∧
    sys_path p2 = sys_path fresh_process_activated.
Proof.
  apply (reactivation_keeps_sys_path (linux_world ["python3.9"]) fresh_process
           fresh_process_activated "linux" linux_site_packages
           fresh_process_listed).
  - split; [reflexivity | vm_compute; reflexivity].
  - vm_compute; reflexivity.
  - vm_compute; reflexivity.
  - reflexivity.
  - reflexivity.
Defined.



(** X15.  When the [.pth] files of the library directory hold directory
    lines only, an activation only adds to the front of [sys.path]: the
    entries present before are its tail, in their order; and some entry of
    the new [sys.path] stands for the library directory (has its
    [site_key]), either the one just added or one that was there. *)
Theorem library_dir_reachable w p p' pname site_path q :
  activates w p p' →
  platform_name w p = Returned pname p →
  resolve_site_path w pname (base_path w pname) p = Returned site_path q →
  plain_pth w site_path →
  sys_path p `suffix_of` sys_path p' ∧
  ∃ e, e ∈ sys_path p' ∧ site_key w e = site_key w site_path.
Proof.
  intros Hact Hname Hsite Hplain.
  rewrite (activates_sys_path _ _ _ _ _ _ Hact Hname Hsite Hplain).
  split; [by apply suffix_app_r|].
  unfold addsitedir_appended. cbn zeta. case_bool_decide as Hknown.
  - apply elem_of_init_pathinfo in Hknown as (e & He & _ & Hkey).
    exists e. split; [|done]. apply elem_of_app. by right.
  - exists site_path. split; [|done]. apply elem_of_cons. by left.
Qed.

Lemma library_dir_reachable_witness :
  sys_path primed_process `suffix_of` sys_path primed_process_activated ∧
  ∃ e, e ∈ sys_path primed_process_activated ∧ e = linux_site_packages.
Proof.
  apply (library_dir_reachable (linux_world ["python3.9"]) primed_process
           primed_process_activated "linux" linux_site_packages
           (log_listdir "/opt/app/python/vendors/py3.9/linux/lib" primed_process)).
  - split; [reflexivity | vm_compute; reflexivity].
  - vm_compute; reflexivity.
  - vm_compute; reflexivity.
  - reflexivity.
Defined.

Lemma pth_dirs_known_after w sitedir path dir :
  dir ∈ pth_dirs w sitedir → path_exists w dir = true →
  site_key w dir = site_key w sitedir ∨
  site_key w dir ∈ init_pathinfo w (addsitedir_appended w sitedir path ++ path).
Proof.
  intros Hdir Hex.
  assert (∀ k, k ∈ init_pathinfo w path →
               k ∈ init_pathinfo w (addsitedir_appended w sitedir path ++ path))
    as Hold.
  { intros k (e & He & Hexe & ->)%elem_of_init_pathinfo.
    apply elem_of_init_pathinfo. exists e. split; [|done].
    apply elem_of_app. by right. }
  assert (∀ e, e ∈ addsitedir_appended w sitedir path → path_exists w e = true →
               site_key w e
               ∈ init_pathinfo w (addsitedir_appended w sitedir path ++ path))
    as Hnew.
  { intros e He Hexe. apply elem_of_init_pathinfo. exists e.
    split; [|done]. apply elem_of_app. by left. }
  unfold addsitedir_appended in *. cbn zeta in *.
  case_bool_decide as Hknown.
  - right.
    destruct (pth_known_origin w (pth_dirs w sitedir) (init_pathinfo w path)
                (site_key w dir)) as [Hk|(e & He & ->)].
    + by apply pth_known_covers.
    + by apply Hold.
    + apply Hnew; [done|]. by eapply pth_appended_exist.
  - destruct (pth_known_origin w (pth_dirs w sitedir)
                ({[site_key w sitedir]} ∪ init_pathinfo w path)
                (site_key w dir)) as [Hk|(e & He & ->)].
    + by apply pth_known_covers.
    + apply elem_of_union in Hk as [->%elem_of_singleton|Hk];
        [by left|right; by apply Hold].
    + right. apply Hnew; [apply elem_of_cons; by right|].
      by eapply pth_appended_exist.
Qed.

Lemma addsitedir_appended_missing w sitedir path :
  (∀ e, site_key w e = site_key w sitedir → path_exists w e = false) →
  addsitedir_appended w sitedir path
  = sitedir :: pth_appended w ({[site_key w sitedir]} ∪ init_pathinfo w path)
                 (pth_dirs w sitedir) ∧
  addsitedir_appended w sitedir (addsitedir_appended w sitedir path ++ path)
  = [sitedir].
Proof.
  intros Hmissing.
  assert (∀ l, site_key w sitedir ∉ init_pathinfo w l) as Hunknown.
  { intros l (e & _ & Hex & Hkey)%elem_of_init_pathinfo.
    by rewrite Hmissing in Hex. }
  split.
  - unfold addsitedir_appended. cbn zeta. by rewrite bool_decide_eq_false_2.
  - unfold addsitedir_appended at 1. cbn zeta.
    rewrite bool_decide_eq_false_2 by done. f_equal.
    apply pth_appended_all_known. intros dir Hdir Hex.
    apply elem_of_union.
    destruct (pth_dirs_known_after w sitedir path dir Hdir Hex) as [->|Hk];
      [left; by apply elem_of_singleton | by right].
Qed.

(** X16.  When the library directory does not exist, [site.addsitedir]
    does not remember it: a second activation puts it in front of
    [sys.path] once more, so that [sys.path] starts with it twice. *)
Theorem missing_library_dir_duplicated w p p1 pname site_path q :
  activates w p p1 →
  platform_name w p = Returned pname p →
  resolve_site_path w pname (base_path w pname) p = Returned site_path q →
  (∀ e, site_key w e = site_key w site_path → path_exists w e = false) →
  ∃ p2 rest,
    activates w p1 p2 ∧
    sys_path p1 = site_path :: rest ∧
    sys_path p2 = site_path :: site_path :: rest.
Proof.
  intros Hact Hname Hsite Hmissing.
  assert (plain_pth w site_path) as Hplain.
  { apply plain_pth_missing. by apply Hmissing. }
  pose proof (activates_sys_path _ _ _ _ _ _ Hact Hname Hsite Hplain) as Hpath1.
  destruct (addsitedir_appended_missing w site_path (sys_path p) Hmissing)
    as [Hfirst Hsecond].
  destruct Hact as [Hqt _].
  destruct (resolve_site_path_any_process _ _ _ _ p1 _ _ Hsite)
    as (q2 & Hsite2 & _ & Hpath2 & _).
  eexists. eexists. split_and!.
  - split; [done|].
    apply (init_framework_returns w p1 pname site_path q2); [done| |done|done].
    by apply (platform_name_any_process w p).
  - rewrite Hpath1, Hfirst. reflexivity.
  - cbn [sys_path]. rewrite Hpath2, Hpath1, Hsecond.
    rewrite Hfirst. reflexivity.
Qed.

Lemma missing_library_dir_duplicated_witness :
  ∃ p2 rest,
    activates hollow_linux_world fresh_process_activated p2 ∧
    sys_path fresh_process_activated = linux_site_packages :: rest ∧
    sys_path p2 = linux_site_packages :: linux_site_packages :: rest.
Proof.
  apply (missing_library_dir_duplicated hollow_linux_world fresh_process
           fresh_process_activated "linux" linux_site_packages
           fresh_process_listed).
  - split; [reflexivity | vm_compute; reflexivity].
  - vm_compute; reflexivity.
  - vm_compute; reflexivity.
  - intros e He. simpl in He. subst e. vm_compute; reflexivity.
Defined.

(** X17.  [init_framework] returns only in these cases: Qt is importable
    already; or the system is in the table and either its name is
    "windows", or [<base_path>/lib] could be listed and holds an entry that
    matches the pattern. *)
Theorem init_framework_returns_only_if w p p' :
  init_framework w p = Returned tt p' →
  qt_importable w = true ∨
  ∃ pname,
    platform_names !! platform_system w = Some pname ∧
    (pname = "windows" ∨
     ∃ entries,
       dir_entries w (path_join w (base_path w pname) ["lib"]) = Some entries ∧
       Exists (λ e, python_pattern_match (version_major w) e = true) entries).
Proof.
  intros Hrun.
  destruct (qt_importable w) eqn:Hqt; [by left|right].
  destruct (activates_inv w p p' (conj Hqt Hrun))
    as (pname & site_path & q & Hname & Hsite & _).
  exists pname. split; [by apply platform_name_inv in Hname as [_ ?]|].
  destruct (decide (pname = "windows")) as [->|Hp]; [by left|right].
  apply resolve_site_path_returned_inv in Hsite
    as (before & folder & after & Hdir & _ & Hfolder & _); [|done].
  eexists. split; [done|].
  apply Exists_app. right. by constructor.
Qed.

Lemma init_framework_returns_only_if_witness :
  qt_importable (linux_world ["include"; "python3.9"]) = true ∨
  ∃ pname,
    platform_names !! "Linux" = Some pname ∧
    (pname = "windows" ∨
     ∃ entries,
       dir_entries (linux_world ["include"; "python3.9"])
         (path_join (linux_world ["include"; "python3.9"])
            (base_path (linux_world ["include"; "python3.9"]) pname) ["lib"])
       = Some entries ∧
       Exists (λ e, python_pattern_match 3 e = true) entries).
Proof.
  apply (init_framework_returns_only_if (linux_world ["include"; "python3.9"])
           fresh_process fresh_process_activated).
  vm_compute; reflexivity.
Defined.
